(** * Premier League position predictor: recent form with bootstrap intervals

    A shallow embedding of [app_tuned_recent_form_with_confidence.py].

    Conventions of the model.
    - A pandas [DataFrame] is the list of its rows, in frame order.
    - Python and NumPy floating-point numbers are read as real numbers
      (exact arithmetic, no rounding); [nan], which NumPy returns for the
      statistics of an empty array, is a value of its own ([npfloat]).
    - Exceptions are values of [exn]; a call that can raise returns a
      [result].
    - NumPy's global random generator is an explicit state that is threaded
      through every function that can reach [np.random.normal].
    - The library calls whose algorithm is not part of this repository
      ([DataFrame.sample], [RandomForestRegressor], [r2_score], the draw of
      one standard normal variate) are parameters of the model. *)

From Stdlib Require Import PrimFloat.
From Stdlib Require Uint63.
From Stdlib Require Import Reals Lra Lia ZArith String Bool List.
From Stdlib Require Import Permutation Sorted RList.
Import ListNotations.

Open Scope R_scope.

(** ** Exceptions and results *)

Inductive exn : Type :=
| NoHistoricalData (prediction_year : Z)
    (* ValueError("No historical data available before ...") *)
| IndexError          (* [.iloc[0]] of an empty frame, [np.percentile] of an empty array *)
| ZeroDivisionError   (* [np.average]: weights sum to zero *)
| KeyError            (* a label missing from a Series *)
| PercentileRange.    (* ValueError: percentiles must be in the range [0, 100] *)

Inductive result (A : Type) : Type :=
| Ok (a : A)
| Err (e : exn).

Arguments Ok {A} a.
Arguments Err {A} e.

(** The error kinds of the specification, and the exception of the source
    that stands for each.  The source has a raise site for one of them only. *)
Inductive error_kind : Type :=
| InsufficientHistory
| EmptyTrainingSet
| InsufficientBootstrapSamples.

Definition error_kind_of (e : exn) : option error_kind :=
  match e with
  | NoHistoricalData _ => Some EmptyTrainingSet
  | IndexError | ZeroDivisionError | KeyError | PercentileRange => None
  end.

Definition fails_with {A : Type} (k : error_kind) (r : result A) : Prop :=
  exists e, r = Err e /\ error_kind_of e = Some k.

Definition result_bind {A B : Type} (r : result A) (k : A -> result B) : result B :=
  match r with
  | Ok a => k a
  | Err e => Err e
  end.

(** ** Python builtins *)

Module Py.

(** [min(a, b)]: the second argument is returned only when it is strictly
    smaller. *)
Definition min (a b : R) : R := if Rlt_dec b a then b else a.

(** [max(a, b)]: the second argument is returned only when it is strictly
    larger. *)
Definition max (a b : R) : R := if Rlt_dec a b then b else a.

(** [max(lo, min(hi, x))], the clamp idiom of the source. *)
Definition clamp (lo hi x : R) : R := max lo (min hi x).

Section Sort.
Context {A : Type} (leb : A -> A -> bool).

(** Stable insertion: [x] comes from the left of everything in [l], so
    it stays in front of the elements it is tied with. *)
Fixpoint insert_by (x : A) (l : list A) : list A :=
  match l with
  | [] => [x]
  | y :: l' => if leb x y then x :: y :: l' else y :: insert_by x l'
  end.

(** [list.sort(key=...)], a stable sort: every stable sort returns this
    list.  [sort_values] is read as the same sort; the order it gives to
    rows of one season only decides which of them receives which noise. *)
Fixpoint sort_by (l : list A) : list A :=
  match l with
  | [] => []
  | x :: l' => insert_by x (sort_by l')
  end.
End Sort.

(** [enumerate(l, start)] *)
Fixpoint enumerate {A : Type} (start : nat) (l : list A) : list (nat * A) :=
  match l with
  | [] => []
  | x :: l' => (start, x) :: enumerate (S start) l'
  end.

End Py.

(** ** NumPy *)

Inductive npfloat : Type :=
| Finite (x : R)
| NaN.

Module Np.

Definition sum (l : list R) : R := fold_right Rplus 0 l.

Fixpoint zip_with (f : R -> R -> R) (a b : list R) : list R :=
  match a, b with
  | x :: a', y :: b' => f x y :: zip_with f a' b'
  | _, _ => []
  end.

Definition sub (a b : npfloat) : npfloat :=
  match a, b with
  | Finite x, Finite y => Finite (x - y)
  | _, _ => NaN
  end.

(** The mean of a non-empty array. *)
Definition mean_value (l : list R) : R := sum l / INR (length l).

(** [np.mean]: [nan] (with a RuntimeWarning) on an empty array. *)
Definition mean (l : list R) : npfloat :=
  match l with
  | [] => NaN
  | _ => Finite (mean_value l)
  end.

(** [np.std] (population standard deviation, [ddof = 0]). *)
Definition std (l : list R) : npfloat :=
  match l with
  | [] => NaN
  | _ =>
      let m := mean_value l in
      Finite (sqrt (mean_value (map (fun x => (x - m) * (x - m)) l)))
  end.

(** [np.average(a, weights=w)] *)
Definition average (a w : list R) : result R :=
  let scl := sum w in
  if Req_dec_T scl 0 then Err ZeroDivisionError
  else Ok (sum (zip_with Rmult a w) / scl).

Definition Rleb (x y : R) : bool := if Rle_dec x y then true else false.

(** Linear interpolation between the two order statistics around the
    virtual index [h] of a sorted array. *)
Definition interpolate (sorted : list R) (h : R) : R :=
  let k := Z.to_nat (Int_part h) in
  let a := nth k sorted 0 in
  let b := nth (Nat.min (S k) (length sorted - 1)) sorted 0 in
  a + (h - INR k) * (b - a).

Section Percentile.
(** What [np.percentile] does with an empty array: a value ([nan]) in the
    older releases, an [IndexError] ([None]) in the newer ones. *)
Variable percentile_empty : option npfloat.

(** [np.percentile(a, q)] with the default linear method. *)
Definition percentile (a : list R) (q : R) : result npfloat :=
  if Rlt_dec q 0 then Err PercentileRange
  else if Rlt_dec 100 q then Err PercentileRange
  else
    match a with
    | [] => match percentile_empty with
            | Some v => Ok v
            | None => Err IndexError
            end
    | _ => Ok (Finite (interpolate (Py.sort_by Rleb a)
                                   (INR (length a - 1) * (q / 100))))
    end.
End Percentile.

(** The sums of squares and of products about the means; their quotient
    is the slope of the least-squares line through the points [(x, y)]
    when the abscissae are not all equal. *)
Definition sxx (xs : list R) : R :=
  let m := mean_value xs in sum (map (fun x => (x - m) * (x - m)) xs).

Definition sxy (xs ys : list R) : R :=
  let mx := mean_value xs in
  let my := mean_value ys in
  sum (zip_with (fun x y => (x - mx) * (y - my)) xs ys).

Section Polyfit.
(** What the least-squares solver returns as slope for a rank-deficient
    system (all abscissae equal): some coefficient, or a [LinAlgError]
    ([None]). *)
Variable lstsq_rank_deficient : list R -> list R -> option R.

(** [np.polyfit(x, y, 1)[0]] *)
Definition polyfit_slope (xs ys : list R) : option R :=
  if Req_dec_T (sxx xs) 0 then lstsq_rank_deficient xs ys
  else Some (sxy xs ys / sxx xs).
End Polyfit.

Section Random.
(** The state of the global generator, and the draw of one standard
    normal variate from it. *)
Variable G : Type.
Variable standard_normal : G -> R * G.

(** [np.random.normal(loc, scale, size)] *)
Fixpoint random_normal (loc scale : R) (size : nat) (g : G) : list R * G :=
  match size with
  | O => ([], g)
  | S k =>
      let (z, g1) := standard_normal g in
      let (zs, g2) := random_normal loc scale k g1 in
      (loc + scale * z :: zs, g2)
  end.
End Random.

(** [len(np.unique(a))] for an integer array. *)
Definition unique_count (a : list Z) : nat := length (nodup Z.eq_dec a).

End Np.

(** ** Binary64

    The arithmetic of lines 31-39 of [weighted_average] for a frame of one
    row and one column, in the IEEE binary64 numbers that NumPy computes
    with.  [np.exp] is a parameter.  On a one-element array [np.average]
    multiplies the value by the weight and divides the product by the
    weight. *)

Module Binary64.

(** The [int64] year difference as a double. *)
Definition of_int (z : Z) : float :=
  if (z <? 0)%Z then (- of_uint63 (Uint63.of_Z (- z)))%float
  else of_uint63 (Uint63.of_Z z).

Section Average.
Variable np_exp : float -> float.

(** [np.exp(-year_diff / 1.05)]; the double next to 1.05 is
    [0x1.0cccccccccccdp+0]. *)
Definition decay_weight (year_diff : Z) : float :=
  np_exp (of_int (- year_diff) / 0x1.0cccccccccccdp+0)%float.

(** [np.average(team_data[feature], weights=team_data['weight'])] for the
    frame whose one row has the season [season] and the value [value]. *)
Definition single_row_average (current_year season : Z) (value : float)
  : result float :=
  let weight := decay_weight (current_year - season) in
  if (weight =? 0)%float then Err ZeroDivisionError
  else Ok (value * weight / weight)%float.
End Average.

End Binary64.


(** ** The dataset *)

(** One line of [pl-tables-1993-2023.csv]. *)
Record Row : Type := {
  team : string;
  season_end_year : Z;
  points : R;
  gf : R;
  ga : R;
  gd : R;
  won : R;
  drawn : R;
  lost : R;
  position : R
}.

(** The numeric columns a feature list or a target can name. *)
Inductive column : Type :=
| Points | Gf | Ga | Gd | Won | Drawn | Lost | Position.

Definition col (c : column) (r : Row) : R :=
  match c with
  | Points => points r
  | Gf => gf r
  | Ga => ga r
  | Gd => gd r
  | Won => won r
  | Drawn => drawn r
  | Lost => lost r
  | Position => position r
  end.

Definition column_eqb (a b : column) : bool :=
  match a, b with
  | Points, Points | Gf, Gf | Ga, Ga | Gd, Gd
  | Won, Won | Drawn, Drawn | Lost, Lost | Position, Position => true
  | _, _ => false
  end.

Definition features : list column := [Points; Gf; Ga; Gd; Won; Drawn; Lost].

Definition target : column := Position.

(** [df[features]]: the design matrix, one list of values per row. *)
Definition design (features : list column) (df : list Row) : list (list R) :=
  map (fun r => map (fun f => col f r) features) df.

(** [df[df['team'] == name]] *)
Definition team_rows (name : string) (df : list Row) : list Row :=
  filter (fun r => String.eqb (team r) name) df.

(** [Series.unique()]: the distinct values in order of first appearance. *)
Fixpoint pd_unique (l : list string) : list string :=
  match l with
  | [] => []
  | x :: l' => x :: filter (fun y => negb (String.eqb y x)) (pd_unique l')
  end.

(** [Series.min()] of a column of years. *)
Definition series_min (l : list Z) : Z := fold_right Z.min (hd 0%Z l) l.

(** ** The weighted-average series *)

(** The keys of the dict that [weighted_average] fills: one per feature,
    and ['recent_form_score']. *)
Inductive label : Type :=
| Col (c : column)
| RecentFormScore.

Definition label_eqb (a b : label) : bool :=
  match a, b with
  | Col c, Col d => column_eqb c d
  | RecentFormScore, RecentFormScore => true
  | _, _ => false
  end.

(** A dict in insertion order, each key at most once. *)
Definition Series : Type := list (label * R).

(** [d[k] = v] *)
Fixpoint dict_set (d : Series) (k : label) (v : R) : Series :=
  match d with
  | [] => [(k, v)]
  | (k', v') :: d' =>
      if label_eqb k k' then (k', v) :: d' else (k', v') :: dict_set d' k v
  end.

(** [s[k]], a [KeyError] being [None]. *)
Fixpoint series_get (s : Series) (k : label) : option R :=
  match s with
  | [] => None
  | (k', v) :: s' => if label_eqb k k' then Some v else series_get s' k
  end.

(** [s[features].values] *)
Fixpoint series_select (s : Series) (features : list column) : option (list R) :=
  match features with
  | [] => Some []
  | f :: rest =>
      match series_get s (Col f), series_select s rest with
      | Some v, Some vs => Some (v :: vs)
      | _, _ => None
      end
  end.

(** ** Rows, intervals and folds of the program *)

Record ConfidenceInterval : Type := {
  prediction : npfloat;
  lower_bound : npfloat;
  upper_bound : npfloat;
  standard_error : npfloat;
  confidence_level : R
}.

Record TeamInterval : Type := {
  ci_team : string;
  ci_prediction : npfloat;
  ci_lower_bound : npfloat;
  ci_upper_bound : npfloat;
  ci_standard_error : npfloat;
  interval_width : npfloat
}.

Record Period : Type := {
  train_end : Z;
  test_start : Z;
  test_end : Z
}.

Definition cv_periods : list Period := [
  {| train_end := 2013; test_start := 2014; test_end := 2016 |};
  {| train_end := 2016; test_start := 2017; test_end := 2019 |};
  {| train_end := 2019; test_start := 2020; test_end := 2023 |}
].


(** ** Resampling

    [df.sample(n=len(df), replace=True, random_state=i)] as pandas performs
    it: [RandomState(i).choice(len(df), size=len(df), replace=True)] draws
    the positions of the rows with [randint], which reads the 32-bit
    outputs of the MT19937 generator seeded with [i] and keeps, of each
    output masked to the bits of the largest position, the values that are
    positions. *)

Module MT19937.

Definition word (z : Z) : Z := Z.land z 0xffffffff.

(** [init_genrand]: the words of the state that follow [prev]. *)
Fixpoint init_from (prev : Z) (i : Z) (count : nat) : list Z :=
  match count with
  | O => []
  | S c =>
      let next := word (1812433253 * Z.lxor prev (Z.shiftr prev 30) + i) in
      next :: init_from next (i + 1)%Z c
  end.

Definition seed_state (seed : Z) : list Z :=
  word seed :: init_from (word seed) 1 623.

Definition mix (upper lower far : Z) : Z :=
  let y := Z.lor (Z.land upper 0x80000000) (Z.land lower 0x7fffffff) in
  let v := Z.lxor far (Z.shiftr y 1) in
  if Z.odd y then Z.lxor v 0x9908b0df else v.

Definition key (st : list Z) (k : nat) : Z := nth (k mod 624) st 0%Z.

Definition set_key (st : list Z) (k : nat) (v : Z) : list Z :=
  firstn k st ++ v :: skipn (S k) st.

(** The 624 words are replaced in place, from the first to the last. *)
Fixpoint twist_from (k : nat) (count : nat) (st : list Z) : list Z :=
  match count with
  | O => st
  | S c =>
      twist_from (S k) c
        (set_key st k (mix (key st k) (key st (k + 1)) (key st (k + 397))))
  end.

Definition twist (st : list Z) : list Z := twist_from 0 624 st.

Definition temper (y : Z) : Z :=
  let y := Z.lxor y (Z.shiftr y 11) in
  let y := Z.lxor y (Z.land (Z.shiftl y 7) 0x9d2c5680) in
  let y := Z.lxor y (Z.land (Z.shiftl y 15) 0xefc60000) in
  Z.lxor y (Z.shiftr y 18).

(** The smallest mask [2^k - 1] that covers [rng]. *)
Definition gen_mask (rng : Z) : Z := Z.ones (Z.log2 rng + 1).

(** [count] integers in [0, rng] by masked rejection; [fuel] bounds the
    number of steps (one per output read, one per refill of the buffer). *)
Fixpoint bounded (fuel : nat) (rng mask : Z) (count : nat)
  (buffer : list Z) (st : list Z) : list Z :=
  match fuel, count with
  | _, O => []
  | O, _ => []
  | S fuel', S count' =>
      match buffer with
      | [] =>
          let st' := twist st in
          bounded fuel' rng mask count (map temper st') st'
      | out :: buffer' =>
          let v := Z.land out mask in
          if (v <=? rng)%Z then v :: bounded fuel' rng mask count' buffer' st
          else bounded fuel' rng mask count buffer' st
      end
  end.

(** [RandomState(seed).randint(0, pop_size, size=size)], for a population
    of fewer than [2^32] elements. *)
Definition randint (seed : nat) (pop_size size : nat) : list nat :=
  match pop_size with
  | O => []
  | S O => repeat O size
  | _ =>
      let rng := (Z.of_nat pop_size - 1)%Z in
      map Z.to_nat
          (bounded (640 * (size + 1)) rng (gen_mask rng) size []
                   (seed_state (Z.of_nat seed)))
  end.

End MT19937.

(** [df.take(positions)] *)
Definition take_rows (df : list Row) (positions : list nat) : list Row :=
  flat_map (fun k => match nth_error df k with
                     | Some r => [r]
                     | None => []
                     end) positions.

(** [df.sample(n=len(df), replace=True, random_state=i)] *)
Definition dataframe_sample (df : list Row) (i : nat) : list Row :=
  take_rows df (MT19937.randint i (length df) (length df)).

(** ** Sample inputs for the worked cases *)

Module Demo.

(** A season of [name] with a number of points and a final position. *)
Definition season (name : string) (year : Z) (pts pos : R) : Row :=
  {| team := name; season_end_year := year; points := pts;
     gf := 0; ga := 0; gd := 0; won := 0; drawn := 0; lost := 0;
     position := pos |}.

(** A generator that hands out a prepared tape of variates. *)
Definition Tape : Type := list R.

Definition draw (t : Tape) : R * Tape :=
  match t with
  | [] => (0, [])
  | z :: t' => (z, t')
  end.

(** A solver that raises on a rank-deficient system. *)
Definition lstsq_raises (xs ys : list R) : option R := None.

(** A regressor that answers with the first target it was fitted on. *)
Definition first_target (X : list (list R)) (y : list R) : R := hd 0 y.

Definition answer (model : R) (x : list R) : R := model.

(** A resampling that draws every row once. *)
Definition whole_frame (df : list Row) (i : nat) : list Row := df.

(** A resampling of a two-row frame that draws the first row twice for the
    seeds below 98 and the second row twice for the others. *)
Definition lopsided (df : list Row) (i : nat) : list Row :=
  match df with
  | [a; b] => if (i <? 98)%nat then [a; a] else [b; b]
  | _ => df
  end.

Definition no_score (y_true y_pred : list R) : R := 0.

(** A generator whose variates never repeat: a counter. *)
Definition count (n : nat) : R * nat := (INR n, S n).



(** One club, champions in 2000 and bottom in 2001. *)
Definition up_and_down : list Row :=
  [season "A" 2000 90 1; season "A" 2001 20 20].




(** A club that enters the league in 2015, beside one that played in 2013. *)
Definition promoted : list Row :=
  [season "B" 2013 50 3; season "A" 2015 40 5].


(** One club, eleventh in 2022 and in 2023, with 40 points more in the
    second season. *)
Definition mid_table : list Row :=
  [season "A" 2022 50 11; season "A" 2023 90 11].

(** One club, one season. *)
Definition newcomer : list Row := [season "A" 2023 50 10].

(** The three seasons of [three_seasons] with other statistics and another
    final position in 2015, and no season 2030. *)
Definition three_seasons_rescored : list Row :=
  [season "A" 2013 50 10; season "A" 2015 99 17].

(** [np.exp] where the worked cases need it: 0.0 below -746 (underflow),
    and the double 0.38582130682912413 at -1/1.05. *)
Definition np_exp (x : float) : float :=
  if (x <? -746)%float then 0%float
  else if (x =? -0x1.e79e79e79e79ep-1)%float then 0x1.8b14bd9bb96a5p-2%float
  else 1%float.

End Demo.

(** ** The program *)

Section Predictor.

(** NumPy's global generator. *)
Variable G : Type.
Variable standard_normal : G -> R * G.

(** The two library behaviours left open in [Np]. *)
Variable lstsq_rank_deficient : list R -> list R -> option R.
Variable percentile_empty : option npfloat.

(** [RandomForestRegressor(n_estimators=100, random_state=42)]: [fit] on a
    design matrix and a target column, then [predict] on one feature
    vector.  The seed is the constant 42 at every construction, so the
    fitted forest is a function of the training data. *)
Variable Forest : Type.
Variable forest_fit : list (list R) -> list R -> Forest.
Variable forest_predict : Forest -> list R -> R.

(** [df.sample(n=len(df), replace=True, random_state=i)] *)
Variable sample : list Row -> nat -> list Row.

(** [sklearn.metrics.r2_score(y_true, y_pred)] *)
Variable r2_score : list R -> list R -> R.

(** Computations that read and advance the generator and may raise. *)
Definition M (A : Type) : Type := G -> result A * G.

Definition ret {A : Type} (a : A) : M A := fun g => (Ok a, g).

Definition raise {A : Type} (e : exn) : M A := fun g => (Err e, g).

Definition bind {A B : Type} (c : M A) (k : A -> M B) : M B :=
  fun g =>
    match c g with
    | (Ok a, g') => k a g'
    | (Err e, g') => (Err e, g')
    end.

Definition lift_result {A : Type} (r : result A) : M A := fun g => (r, g).

Definition lookup {A : Type} (o : option A) : M A :=
  fun g => match o with Some a => (Ok a, g) | None => (Err KeyError, g) end.

Notation "x <- c ;; k" := (bind c (fun x => k))
  (at level 61, c at next level, right associativity).

(** A [for] loop that threads an accumulator. *)
Fixpoint for_each {A S : Type} (body : A -> S -> M S) (l : list A) (s : S) : M S :=
  match l with
  | [] => ret s
  | x :: l' => s' <- body x s ;; for_each body l' s'
  end.

(** *** Recent form *)

(** [np.exp(-year_diff / 1.05)] *)
Definition decay_weight (year_diff : Z) : R := exp (- IZR year_diff / 1.05).

(** [team_data[team_data['season_end_year'] >= current_year - last_n_seasons]] *)
Definition recent_seasons (team_data : list Row) (current_year last_n_seasons : Z)
  : list Row :=
  filter (fun r => (current_year - last_n_seasons <=? season_end_year r)%Z) team_data.

Definition year_leb (a b : Row) : bool :=
  (season_end_year a <=? season_end_year b)%Z.

(** The normalised years of the sorted recent rows. *)
Definition normalized_years (recent_data : list Row) : list Z :=
  let years := map season_end_year recent_data in
  map (fun y => (y - series_min years)%Z) years.

(** The abscissae handed to [np.polyfit]: the normalised years, with noise
    from the global generator added when they are all equal. *)
Definition fit_abscissae (years_normalized : list Z) (g : G) : list R * G :=
  if (Np.unique_count years_normalized <? 2)%nat then
    let (noise, g') :=
      Np.random_normal G standard_normal 0 0.01 (length years_normalized) g in
    (Np.zip_with Rplus (map IZR years_normalized) noise, g')
  else (map IZR years_normalized, g).

Definition calculate_recent_form_score
  (team_data : list Row) (current_year last_n_seasons : Z) (g : G) : R * G :=
  let recent_data := recent_seasons team_data current_year last_n_seasons in
  if (length recent_data <? 2)%nat then (0, g)
  else
    let recent_data := Py.sort_by year_leb recent_data in
    if (2 <=? length recent_data)%nat then
      let years_normalized := normalized_years recent_data in
      let (xs, g') := fit_abscissae years_normalized g in
      match Np.polyfit_slope lstsq_rank_deficient xs (map points recent_data) with
      | None => (0, g')
      | Some points_trend =>
          match Np.polyfit_slope lstsq_rank_deficient xs (map position recent_data) with
          | None => (0, g')
          | Some slope =>
              let position_trend := - slope in
              let points_trend_scaled := points_trend / 5 in
              let position_trend_scaled := position_trend / 2 in
              let form_score :=
                points_trend_scaled * 0.6 + position_trend_scaled * 0.4 in
              (Py.max (-3) (Py.min 3 form_score), g')
          end
      end
    else (0, g).

(** *** Weighted average *)

(** The [for feature in features] loop of [weighted_average]. *)
Fixpoint average_features (team_data : list Row) (weight : list R)
  (features : list column) (weighted_avg : Series) : result Series :=
  match features with
  | [] => Ok weighted_avg
  | feature :: rest =>
      match Np.average (map (col feature) team_data) weight with
      | Err e => Err e
      | Ok v =>
          average_features team_data weight rest
            (dict_set weighted_avg (Col feature) v)
      end
  end.

Definition weighted_average
  (team_data : list Row) (features : list column) (current_year : Z) : M Series :=
  let year_diff := map (fun r => (current_year - season_end_year r)%Z) team_data in
  let weight := map decay_weight year_diff in
  weighted_avg <- lift_result (average_features team_data weight features []) ;;
  fun g =>
    let (recent_form, g') := calculate_recent_form_score team_data current_year 3 g in
    (Ok (dict_set weighted_avg RecentFormScore recent_form), g').

(** *** Prediction for one team *)

(** The block that the three call sites share: select the base features,
    predict, subtract the form adjustment, keep within 1..20. *)
Definition adjusted_prediction (model : Forest) (features : list column)
  (trend_features : Series) : M R :=
  X_team <- lookup (series_select trend_features features) ;;
  let predicted_pos := forest_predict model X_team in
  form_score <- lookup (series_get trend_features RecentFormScore) ;;
  let form_adjustment := - form_score * 0.05 in
  let adjusted_prediction := predicted_pos + form_adjustment in
  ret (Py.max 1 (Py.min 20 adjusted_prediction)).

(** *** Bootstrap confidence interval *)

(** One pass of the [for i in range(n_bootstrap)] loop. *)
Definition bootstrap_iteration
  (historical_data team_data : list Row) (features : list column)
  (prediction_year : Z) (i : nat) (bootstrap_predictions : list R) : M (list R) :=
  let bootstrap_sample := sample historical_data i in
  let X_boot := design features bootstrap_sample in
  let y_boot := map (col target) bootstrap_sample in
  let rf_boot := forest_fit X_boot y_boot in
  match team_data with
  | [] => raise IndexError
  | first :: _ =>
      let team_bootstrap := team_rows (team first) bootstrap_sample in
      if (0 <? length team_bootstrap)%nat then
        trend_features <- weighted_average team_bootstrap features prediction_year ;;
        adjusted <- adjusted_prediction rf_boot features trend_features ;;
        ret (bootstrap_predictions ++ [adjusted])
      else ret bootstrap_predictions
  end.

(** The loop: the adjusted predictions of the iterations that found the team. *)
Definition bootstrap_predictions
  (historical_data team_data : list Row) (features : list column)
  (prediction_year : Z) (n_bootstrap : nat) : M (list R) :=
  for_each (bootstrap_iteration historical_data team_data features prediction_year)
           (seq 0 n_bootstrap) [].

(** The statistics after the loop. *)
Definition interval_statistics
  (bootstrap_predictions : list R) (confidence_level : R) : result ConfidenceInterval :=
  let alpha := 1 - confidence_level in
  let lower_percentile := (alpha / 2) * 100 in
  let upper_percentile := (1 - alpha / 2) * 100 in
  let prediction := Np.mean bootstrap_predictions in
  result_bind (Np.percentile percentile_empty bootstrap_predictions lower_percentile)
    (fun lower_bound =>
  result_bind (Np.percentile percentile_empty bootstrap_predictions upper_percentile)
    (fun upper_bound =>
  let standard_error := Np.std bootstrap_predictions in
  Ok {| prediction := prediction;
        lower_bound := lower_bound;
        upper_bound := upper_bound;
        standard_error := standard_error;
        confidence_level := confidence_level |})).

Definition bootstrap_confidence_interval_recent_form
  (historical_data team_data : list Row) (features : list column)
  (prediction_year : Z) (n_bootstrap : nat) (confidence_level : R)
  : M ConfidenceInterval :=
  predictions <- bootstrap_predictions historical_data team_data features
                   prediction_year n_bootstrap ;;
  lift_result (interval_statistics predictions confidence_level).

(** *** Time-series cross-validation *)

Definition cv_train_data (data : list Row) (period : Period) : list Row :=
  filter (fun r => (season_end_year r <=? train_end period)%Z) data.

Definition cv_test_data (data : list Row) (period : Period) : list Row :=
  filter (fun r => (test_start period <=? season_end_year r)%Z
                   && (season_end_year r <=? test_end period)%Z) data.

(** The body of [for _, row in team_test_data.iterrows()]. *)
Definition cv_predict_row
  (rf_cv : Forest) (train_data : list Row) (features : list column)
  (target : column) (team : string) (row : Row)
  (fold : list R * list R) : M (list R * list R) :=
  let (fold_predictions, fold_actuals) := fold in
  let team_historical := team_rows team train_data in
  if (length team_historical =? 0)%nat then ret fold
  else
    trend_features <- weighted_average team_historical features (season_end_year row) ;;
    adjusted <- adjusted_prediction rf_cv features trend_features ;;
    ret (fold_predictions ++ [adjusted], fold_actuals ++ [col target row]).

(** The body of [for team in test_teams]. *)
Definition cv_predict_team
  (rf_cv : Forest) (train_data test_data : list Row) (features : list column)
  (target : column) (team : string) (fold : list R * list R) : M (list R * list R) :=
  let team_test_data := team_rows team test_data in
  for_each (cv_predict_row rf_cv train_data features target team) team_test_data fold.

(** The body of [for period in cv_periods]. *)
Definition cv_fold
  (data : list Row) (features : list column) (target : column)
  (period : Period) (cv_scores : list R) : M (list R) :=
  let train_data := cv_train_data data period in
  let test_data := cv_test_data data period in
  if (length train_data =? 0)%nat || (length test_data =? 0)%nat then ret cv_scores
  else
    let X_train_cv := design features train_data in
    let y_train_cv := map (col target) train_data in
    let rf_cv := forest_fit X_train_cv y_train_cv in
    let test_teams := pd_unique (map team test_data) in
    fold <- for_each (cv_predict_team rf_cv train_data test_data features target)
              test_teams ([], []) ;;
    let (fold_predictions, fold_actuals) := fold in
    if (0 <? length fold_predictions)%nat then
      let fold_score := r2_score fold_actuals fold_predictions in
      ret (cv_scores ++ [fold_score])
    else ret cv_scores.

Definition cross_validate_time_series
  (data : list Row) (features : list column) (target : column)
  (prediction_year : Z) : M R :=
  cv_scores <- for_each (cv_fold data features target) cv_periods [] ;;
  ret (match cv_scores with
       | [] => 0
       | _ => Np.mean_value cv_scores
       end).

(** *** Ranking and the prediction run *)

Definition position_leb (a b : string * R) : bool := Np.Rleb (snd a) (snd b).

(** [predictions.sort(key=...)] followed by the [enumerate(..., start=1)]
    loop that overwrites every predicted position with its rank. *)
Definition assign_ranks (predictions : list (string * R)) : list (string * nat) :=
  map (fun p => (fst (snd p), fst p))
      (Py.enumerate 1 (Py.sort_by position_leb predictions)).

(** The body of [for i, team in enumerate(teams, 1)]. *)
Definition predict_team
  (historical_data : list Row) (rf_model : Forest) (prediction_year : Z)
  (confidence_level : R) (team : string)
  (acc : list (string * R) * list TeamInterval)
  : M (list (string * R) * list TeamInterval) :=
  let (predictions, confidence_intervals) := acc in
  let team_data := team_rows team historical_data in
  if (length team_data =? 0)%nat then ret acc
  else
    ci_results <- bootstrap_confidence_interval_recent_form
                    historical_data team_data features prediction_year 100
                    confidence_level ;;
    trend_features <- weighted_average team_data features prediction_year ;;
    adjusted <- adjusted_prediction rf_model features trend_features ;;
    let interval :=
      {| ci_team := team;
         ci_prediction := prediction ci_results;
         ci_lower_bound := lower_bound ci_results;
         ci_upper_bound := upper_bound ci_results;
         ci_standard_error := standard_error ci_results;
         interval_width := Np.sub (upper_bound ci_results) (lower_bound ci_results) |} in
    ret (predictions ++ [(team, adjusted)], confidence_intervals ++ [interval]).

(** [compare_predictions_with_confidence] up to the ranked predictions.
    The module-level [data] is the first argument.  The merge with
    [actual_standings], the CSV file and the printed report that follow
    (with the form details kept for it) are not part of the model. *)
Definition compare_predictions_with_confidence
  (data : list Row) (teams : list string) (actual_standings : list (string * R))
  (prediction_year : Z) (confidence_level : R)
  : M (list (string * nat) * list TeamInterval) :=
  let historical_data :=
    filter (fun r => (season_end_year r <? prediction_year)%Z) data in
  if (length historical_data =? 0)%nat then raise (NoHistoricalData prediction_year)
  else
    let X_historical := design features historical_data in
    let y_historical := map (col target) historical_data in
    let rf_model := forest_fit X_historical y_historical in
    acc <- for_each (predict_team historical_data rf_model prediction_year
                       confidence_level) teams ([], []) ;;
    let (predictions, confidence_intervals) := acc in
    ret (assign_ranks predictions, confidence_intervals).

(** *** Vocabulary of the statements *)

(** The predictions tied at the value [v]. *)
Definition tied_at (v : R) (p : string * R) : bool :=
  if Req_dec_T (snd p) v then true else false.

Definition below (v : R) (p : string * R) : bool :=
  if Rlt_dec (snd p) v then true else false.

Definition above (v : R) (p : string * R) : bool :=
  if Rlt_dec v (snd p) then true else false.

(** The recent window of [team_data] makes [calculate_recent_form_score]
    draw noise from the global generator. *)
Definition draws_noise (team_data : list Row) (current_year : Z) : bool :=
  let recent_data := recent_seasons team_data current_year 3 in
  (2 <=? length recent_data)%nat
  && (Np.unique_count (normalized_years (Py.sort_by year_leb recent_data)) <? 2)%nat.




(** The weight of a row, and the weighted mean of a column as the
    quotient of sums that [np.average] computes. *)
Definition row_weight (current_year : Z) (r : Row) : R :=
  decay_weight (current_year - season_end_year r).

Definition weighted_mean (team_data : list Row) (current_year : Z) (f : column) : R :=
  Np.sum (map (fun r => col f r * row_weight current_year r) team_data)
  / Np.sum (map (row_weight current_year) team_data).

(** The adjusted position that a fitted forest gives a team whose frame is
    [team_data], when the generator is in state [g]. *)
Definition team_prediction (model : Forest) (team_data : list Row)
  (features : list column) (current_year : Z) (g : G) : R :=
  let raw_position :=
    forest_predict model (map (weighted_mean team_data current_year) features) in
  let form_score := fst (calculate_recent_form_score team_data current_year 3 g) in
  Py.clamp 1 20 (raw_position - 0.05 * form_score).



(** *** The form details and the comparison table *)





(** [pd.merge(left, right, left_on=..., right_on=...)], an inner join: a
    row for every pair of a left row and a right row with the same key, in
    the order of the left frame. *)
Definition inner_merge {A B C : Type} (left_on : A -> string) (right_on : B -> string)
  (join : A -> B -> C) (left : list A) (right : list B) : list C :=
  flat_map (fun a =>
              map (join a)
                  (filter (fun b => String.eqb (right_on b) (left_on a)) right))
           left.

Record ComparisonRow : Type := {
  cmp_team : string;             (* 'Team' *)
  predicted_position : nat;      (* 'Predicted Position' *)
  actual_position : R;           (* 'Actual Position' *)
  position_difference : R;       (* 'Position Difference' *)
  cmp_interval : TeamInterval    (* the columns of [ci_df] *)
}.

(** The two merges that build [comparison_df].  A frame made from an empty
    list has no column, so a merge on its team column raises [KeyError]. *)
Definition comparison_table
  (predictions : list (string * nat)) (confidence_intervals : list TeamInterval)
  (actual_standings : list (string * R)) : result (list ComparisonRow) :=
  match predictions with
  | [] => Err KeyError
  | _ :: _ =>
      let comparison_df :=
        inner_merge fst fst (fun p a => (fst p, snd p, snd a))
          predictions actual_standings in
      let comparison_df :=
        map (fun row =>
               let '(name, predicted, actual) := row in
               (name, predicted, actual, INR predicted - actual))
            comparison_df in
      match confidence_intervals with
      | [] => Err KeyError
      | _ :: _ =>
          Ok (inner_merge (fun row => fst (fst (fst row))) ci_team
                (fun row ci =>
                   let '(name, predicted, actual, difference) := row in
                   {| cmp_team := name;
                      predicted_position := predicted;
                      actual_position := actual;
                      position_difference := difference;
                      cmp_interval := ci |})
                comparison_df confidence_intervals)
      end
  end.

(** [compare_predictions_with_confidence] up to [comparison_df]. *)
Definition compare_predictions_table
  (data : list Row) (teams : list string) (actual_standings : list (string * R))
  (prediction_year : Z) (confidence_level : R) : M (list ComparisonRow) :=
  ranked <- compare_predictions_with_confidence data teams actual_standings
              prediction_year confidence_level ;;
  lift_result (comparison_table (fst ranked) (snd ranked) actual_standings).

(** *** Vocabulary of the further properties *)

(** The frame with every season moved by [k] years. *)
Definition shift_seasons (k : Z) (df : list Row) : list Row :=
  map (fun r =>
         {| team := team r; season_end_year := (season_end_year r + k)%Z;
            points := points r; gf := gf r; ga := ga r; gd := gd r;
            won := won r; drawn := drawn r; lost := lost r;
            position := position r |}) df.

(** The team has a row in the frame. *)
Definition in_frame (name : string) (df : list Row) : bool :=
  (0 <? length (team_rows name df))%nat.

(** The seeds below [n_bootstrap] whose resample holds a row of the team. *)
Definition hits (historical_data : list Row) (name : string) (n_bootstrap : nat)
  : list nat :=
  filter (fun i => in_frame name (sample historical_data i)) (seq 0 n_bootstrap).

(** The test rows a fold predicts: those of the teams that have a training
    row, team by team in the order the teams first appear. *)
Definition usable_rows (train_data test_data : list Row) : list Row :=
  flat_map (fun name =>
              if in_frame name train_data then team_rows name test_data else [])
           (pd_unique (map team test_data)).

(** The row of [confidence_intervals] that the team loop builds from the
    result of the bootstrap. *)
Definition team_interval (name : string) (ci_results : ConfidenceInterval)
  : TeamInterval :=
  {| ci_team := name;
     ci_prediction := prediction ci_results;
     ci_lower_bound := lower_bound ci_results;
     ci_upper_bound := upper_bound ci_results;
     ci_standard_error := standard_error ci_results;
     interval_width := Np.sub (upper_bound ci_results) (lower_bound ci_results) |}.

(** An interval row is either made of finite values within the range of
    the ranks, the bounds in order, or the row of a team that no resample
    held. *)
Definition interval_in_range (ti : TeamInterval) : Prop :=
  (exists point lo hi,
      ci_prediction ti = Finite point
      /\ ci_lower_bound ti = Finite lo
      /\ ci_upper_bound ti = Finite hi
      /\ interval_width ti = Finite (hi - lo)
      /\ 1 <= lo /\ lo <= hi /\ hi <= 20
      /\ 1 <= point <= 20)
  \/ (ci_prediction ti = NaN
      /\ ci_standard_error ti = NaN
      /\ ci_lower_bound ti = ci_upper_bound ti).

(** *** Numeric range

    The model computes with real numbers; the program computes with
    doubles.  The statements that need every weight to be a positive
    normal double, and sums of products of weights and statistics to be
    accurate, ask for frames within the following range. *)

(** Every season of the frame lies in the 700 years up to [current_year]. *)
Definition within_years (current_year : Z) (df : list Row) : Prop :=
  Forall (fun r => (0 <= current_year - season_end_year r <= 700)%Z) df.

(** Every statistic of the frame is at most [10^6] in absolute value. *)
Definition within_magnitude (df : list Row) : Prop :=
  Forall (fun r => forall c, Rabs (col c r) <= 1000000) df.

(** What the statements about weighted averages allow for rounding. *)
Definition tolerance : R := 1 / 1000000.

(** *** Vocabulary of the fold *)

(** What a fold reads of a test row before it scores its predictions: the
    team and the season. *)
Definition same_team_season (a b : Row) : Prop :=
  team a = team b /\ season_end_year a = season_end_year b.

(** The [for team in test_teams] loop of a fold, on a given forest and
    training frame: the predictions and the actual values collected. *)
Definition cv_collect
  (rf_cv : Forest) (train_data test_data : list Row) (features : list column)
  (target : column) : M (list R * list R) :=
  for_each (cv_predict_team rf_cv train_data test_data features target)
           (pd_unique (map team test_data)) ([], []).

(** The end of a fold: the score of the collected predictions, if any. *)
Definition cv_score (cv_scores : list R) (fold : list R * list R) : list R :=
  let (fold_predictions, fold_actuals) := fold in
  if (0 <? length fold_predictions)%nat
  then cv_scores ++ [r2_score fold_actuals fold_predictions]
  else cv_scores.

(** ** Python builtins: facts *)

Lemma py_min_spec (a b : R) : Py.min a b = Rmin a b.
Proof.
  unfold Py.min, Rmin.
  destruct (Rlt_dec b a), (Rle_dec a b); lra.
Qed.

Lemma py_max_spec (a b : R) : Py.max a b = Rmax a b.
Proof.
  unfold Py.max, Rmax.
  destruct (Rlt_dec a b), (Rle_dec a b); lra.
Qed.

Lemma py_clamp_bounds (lo hi x : R) :
  lo <= hi -> lo <= Py.clamp lo hi x <= hi.
Proof.
  intros Hle. unfold Py.clamp, Py.max, Py.min.
  destruct (Rlt_dec x hi); destruct (Rlt_dec lo _); lra.
Qed.

Lemma py_clamp_id (lo hi x : R) :
  lo <= x <= hi -> Py.clamp lo hi x = x.
Proof.
  intros [H1 H2]. unfold Py.clamp, Py.max, Py.min.
  destruct (Rlt_dec x hi); destruct (Rlt_dec lo _); lra.
Qed.

Lemma Rleb_true (x y : R) : Np.Rleb x y = true <-> x <= y.
Proof. unfold Np.Rleb. destruct (Rle_dec x y); split; intros; try easy. Qed.

Lemma Rleb_false (x y : R) : Np.Rleb x y = false <-> y < x.
Proof.
  unfold Np.Rleb. destruct (Rle_dec x y); split; intros; try easy; lra.
Qed.

Section SortFacts.
Context {A : Type} (leb : A -> A -> bool).
Hypothesis leb_total : forall a b, leb a b = false -> leb b a = true.
Hypothesis leb_trans : forall a b c, leb a b = true -> leb b c = true -> leb a c = true.

Lemma insert_by_perm (x : A) (l : list A) :
  Permutation (Py.insert_by leb x l) (x :: l).
Proof.
  induction l as [|y l IH]; simpl.
  - apply Permutation_refl.
  - destruct (leb x y).
    + apply Permutation_refl.
    + eapply perm_trans; [apply perm_skip, IH | apply perm_swap].
Qed.

Lemma sort_by_perm (l : list A) : Permutation (Py.sort_by leb l) l.
Proof.
  induction l as [|x l IH]; simpl.
  - apply perm_nil.
  - eapply perm_trans; [apply insert_by_perm | apply perm_skip, IH].
Qed.

Lemma sort_by_length (l : list A) : length (Py.sort_by leb l) = length l.
Proof. apply Permutation_length, sort_by_perm. Qed.

Lemma insert_by_sorted (x : A) (l : list A) :
  StronglySorted (fun a b => leb a b = true) l ->
  StronglySorted (fun a b => leb a b = true) (Py.insert_by leb x l).
Proof.
  induction 1 as [|y l Hs IH Hy]; simpl.
  - constructor; constructor.
  - destruct (leb x y) eqn:Hxy.
    + constructor; [constructor; assumption|].
      constructor; [assumption|].
      eapply Forall_impl; [|exact Hy].
      intros z Hz. eapply leb_trans; eassumption.
    + constructor; [assumption|].
      assert (Hp : Permutation (Py.insert_by leb x l) (x :: l))
        by apply insert_by_perm.
      eapply Permutation_Forall; [apply Permutation_sym, Hp|].
      constructor; [apply leb_total, Hxy | assumption].
Qed.

Lemma sort_by_sorted (l : list A) :
  StronglySorted (fun a b => leb a b = true) (Py.sort_by leb l).
Proof.
  induction l as [|x l IH]; simpl.
  - constructor.
  - apply insert_by_sorted, IH.
Qed.

(** Stability: a class of mutually tied elements keeps its input order. *)
Lemma insert_by_stable (p : A -> bool) (x : A) (l : list A) :
  (forall a b, p a = true -> p b = true -> leb a b = true) ->
  filter p (Py.insert_by leb x l) = filter p (x :: l).
Proof.
  intros Hp. induction l as [|y l IH]; simpl.
  - reflexivity.
  - destruct (leb x y) eqn:Hxy; simpl.
    + reflexivity.
    + rewrite IH. simpl.
      destruct (p y) eqn:Hpy, (p x) eqn:Hpx; try reflexivity.
      rewrite (Hp x y Hpx Hpy) in Hxy. discriminate.
Qed.

Lemma sort_by_stable (p : A -> bool) (l : list A) :
  (forall a b, p a = true -> p b = true -> leb a b = true) ->
  filter p (Py.sort_by leb l) = filter p l.
Proof.
  intros Hp. induction l as [|x l IH]; simpl.
  - reflexivity.
  - rewrite insert_by_stable by assumption. simpl. rewrite IH. reflexivity.
Qed.


End SortFacts.

Lemma enumerate_fst {A : Type} (l : list A) (start : nat) :
  map fst (Py.enumerate start l) = seq start (length l).
Proof.
  revert start. induction l as [|x l IH]; intros start; simpl.
  - reflexivity.
  - rewrite IH. reflexivity.
Qed.

Lemma enumerate_snd {A : Type} (l : list A) (start : nat) :
  map snd (Py.enumerate start l) = l.
Proof.
  revert start. induction l as [|x l IH]; intros start; simpl.
  - reflexivity.
  - rewrite IH. reflexivity.
Qed.

(** ** Ranking *)

Lemma position_leb_total (a b : string * R) :
  position_leb a b = false -> position_leb b a = true.
Proof.
  unfold position_leb. rewrite Rleb_false, Rleb_true. lra.
Qed.

Lemma position_leb_trans (a b c : string * R) :
  position_leb a b = true -> position_leb b c = true -> position_leb a c = true.
Proof.
  unfold position_leb. rewrite !Rleb_true. lra.
Qed.

Lemma tied_at_leb (v : R) (a b : string * R) :
  tied_at v a = true -> tied_at v b = true -> position_leb a b = true.
Proof.
  unfold tied_at, position_leb.
  destruct (Req_dec_T (snd a) v), (Req_dec_T (snd b) v); try discriminate.
  intros _ _. apply Rleb_true. lra.
Qed.

Lemma filter_none {A : Type} (p : A -> bool) (l : list A) :
  Forall (fun x => p x = false) l -> filter p l = [].
Proof.
  induction 1 as [|x l Hx _ IH]; simpl.
  - reflexivity.
  - rewrite Hx. exact IH.
Qed.

Lemma filter_all {A : Type} (p : A -> bool) (l : list A) :
  Forall (fun x => p x = true) l -> filter p l = l.
Proof.
  induction 1 as [|x l Hx _ IH]; simpl.
  - reflexivity.
  - rewrite Hx, IH. reflexivity.
Qed.

(** A list sorted by position splits into the block below [v], the block
    tied at [v] and the block above [v]. *)
Lemma sorted_blocks (v : R) (l : list (string * R)) :
  StronglySorted (fun a b => position_leb a b = true) l ->
  l = filter (below v) l ++ filter (tied_at v) l ++ filter (above v) l.
Proof.
  induction 1 as [|x l Hs IH Hx]; simpl.
  - reflexivity.
  - assert (Hle : Forall (fun y => snd x <= snd y) l).
    { eapply Forall_impl; [|exact Hx]. intros y Hy. apply Rleb_true, Hy. }
    unfold below at 1, tied_at at 1, above at 1.
    destruct (Rlt_dec (snd x) v) as [Hlt|Hnlt].
    + destruct (Req_dec_T (snd x) v); [lra|].
      destruct (Rlt_dec v (snd x)); [lra|].
      simpl. f_equal. exact IH.
    + assert (Hb : filter (below v) l = []).
      { apply filter_none. eapply Forall_impl; [|exact Hle].
        intros y Hy. unfold below. destruct (Rlt_dec (snd y) v); [lra|reflexivity]. }
      rewrite Hb in *. simpl in *.
      destruct (Req_dec_T (snd x) v) as [Heq|Hne].
      * destruct (Rlt_dec v (snd x)); [lra|].
        simpl. f_equal. exact IH.
      * destruct (Rlt_dec v (snd x)); [|lra].
        assert (Ht : filter (tied_at v) l = []).
        { apply filter_none. eapply Forall_impl; [|exact Hle].
          intros y Hy. unfold tied_at.
          destruct (Req_dec_T (snd y) v); [lra|reflexivity]. }
        assert (Ha : filter (above v) l = l).
        { apply filter_all. eapply Forall_impl; [|exact Hle].
          intros y Hy. unfold above.
          destruct (Rlt_dec v (snd y)); [reflexivity|lra]. }
        rewrite Ht, Ha. reflexivity.
Qed.

Lemma filter_Forall_true {A : Type} (p : A -> bool) (l : list A) :
  Forall (fun x => p x = true) (filter p l).
Proof.
  apply Forall_forall. intros x Hx. apply filter_In in Hx. apply Hx.
Qed.

Lemma assign_ranks_combine (l : list (string * R)) :
  assign_ranks l =
  combine (map fst (Py.sort_by position_leb l)) (seq 1 (length l)).
Proof.
  unfold assign_ranks.
  rewrite <- (sort_by_length position_leb l).
  generalize (Py.sort_by position_leb l) 1%nat.
  induction l0 as [|x l0 IH]; intros n; simpl.
  - reflexivity.
  - rewrite IH. reflexivity.
Qed.

Lemma assign_ranks_nth (l : list (string * R)) (k : nat) (p : string * R) :
  nth_error (Py.sort_by position_leb l) k = Some p ->
  nth_error (assign_ranks l) k = Some (fst p, S k).
Proof.
  unfold assign_ranks.
  generalize (Py.sort_by position_leb l). intros s.
  assert (H : forall start, nth_error s k = Some p ->
            nth_error (map (fun q : nat * (string * R) => (fst (snd q), fst q))
                           (Py.enumerate start s)) k = Some (fst p, (start + k)%nat)).
  { revert k. induction s as [|x s IH]; intros k start Hk.
    - destruct k; discriminate.
    - destruct k as [|k]; simpl in *.
      + inversion Hk; subst. rewrite Nat.add_0_r. reflexivity.
      + rewrite (IH k (S start) Hk). f_equal. f_equal. lia. }
  intros Hk. rewrite (H 1%nat Hk). reflexivity.
Qed.

(** C6. The ranks assigned to K predictions are exactly 1..K, handed out in
    ascending order of adjusted position; the teams tied at one value form
    a block of consecutive ranks, in their input order. *)
Theorem assign_ranks_consecutive_stable (predictions : list (string * R)) :
  let ranked := Py.sort_by position_leb predictions in
  map snd (assign_ranks predictions) = seq 1 (length predictions)
  /\ map fst (assign_ranks predictions) = map fst ranked
  /\ Permutation ranked predictions
  /\ StronglySorted (fun a b => snd a <= snd b) ranked
  /\ forall v : R, exists before after : list (string * R),
       ranked = before ++ filter (tied_at v) predictions ++ after
       /\ Forall (fun p => snd p < v) before
       /\ Forall (fun p => v < snd p) after
       /\ forall (i : nat) (p : string * R),
            nth_error (filter (tied_at v) predictions) i = Some p ->
            nth_error (assign_ranks predictions) (length before + i)
            = Some (fst p, S (length before + i)).
Proof.
  intros ranked.
  assert (Hsorted : StronglySorted (fun a b => position_leb a b = true) ranked).
  { apply sort_by_sorted; [apply position_leb_total | apply position_leb_trans]. }
  assert (Hlen : length ranked = length predictions) by apply sort_by_length.
  split; [|split; [|split; [|split]]].
  - rewrite assign_ranks_combine. fold ranked.
    rewrite <- Hlen. clear.
    generalize 1%nat. induction ranked as [|x l IH]; intros n; simpl.
    + reflexivity.
    + rewrite IH. reflexivity.
  - rewrite assign_ranks_combine. fold ranked.
    rewrite <- Hlen. clear.
    generalize 1%nat. induction ranked as [|x l IH]; intros n; simpl.
    + reflexivity.
    + rewrite IH. reflexivity.
  - apply sort_by_perm.
  - clear Hlen. induction Hsorted as [|x l Hs IH Hx]; constructor.
    + exact IH.
    + eapply Forall_impl; [|exact Hx]. intros y Hy. apply Rleb_true, Hy.
  - intros v.
    exists (filter (below v) ranked), (filter (above v) ranked).
    assert (Hst : filter (tied_at v) ranked = filter (tied_at v) predictions).
    { apply sort_by_stable. apply tied_at_leb. }
    assert (Hdec : ranked = filter (below v) ranked
                            ++ filter (tied_at v) predictions
                            ++ filter (above v) ranked).
    { rewrite <- Hst. apply sorted_blocks, Hsorted. }
    split; [exact Hdec|]. split; [|split].
    + eapply Forall_impl; [|apply filter_Forall_true].
      intros p. unfold below. destruct (Rlt_dec (snd p) v); [auto|discriminate].
    + eapply Forall_impl; [|apply filter_Forall_true].
      intros p. unfold above. destruct (Rlt_dec v (snd p)); [auto|discriminate].
    + intros i p Hi. apply assign_ranks_nth. fold ranked.
      generalize dependent (filter (below v) ranked).
      intros before Hdec. rewrite Hdec.
      rewrite nth_error_app2 by lia.
      replace (length before + i - length before)%nat with i by lia.
      rewrite nth_error_app1; [exact Hi|].
      apply nth_error_Some. rewrite Hi. discriminate.
Qed.

(** ** NumPy: sums and weighted averages *)


Lemma np_sum_pos (l : list R) :
  l <> [] -> Forall (fun w => 0 < w) l -> 0 < Np.sum l.
Proof.
  intros Hne Hpos. destruct l as [|x l]; [contradiction|]. clear Hne.
  revert x Hpos. induction l as [|y l IH]; intros x Hpos; unfold Np.sum in *; simpl.
  - inversion Hpos; subst. lra.
  - inversion Hpos as [|? ? Hx Hrest]; subst.
    specialize (IH y Hrest). simpl in IH. lra.
Qed.

Lemma np_sum_zip_map {A : Type} (f w : A -> R) (l : list A) :
  Np.sum (Np.zip_with Rmult (map f l) (map w l))
  = Np.sum (map (fun r => f r * w r) l).
Proof.
  unfold Np.sum. induction l as [|x l IH]; simpl; [reflexivity|].
  rewrite IH. reflexivity.
Qed.



Lemma np_average_value (a w : list R) :
  Np.sum w <> 0 ->
  Np.average a w = Ok (Np.sum (Np.zip_with Rmult a w) / Np.sum w).
Proof.
  intros Hne. unfold Np.average.
  destruct (Req_dec_T (Np.sum w) 0); [contradiction|reflexivity].
Qed.

(** ** The decay weights *)

Lemma decay_weight_pos (year_diff : Z) : 0 < decay_weight year_diff.
Proof. apply exp_pos. Qed.


Lemma weights_pos (team_data : list Row) (current_year : Z) :
  Forall (fun w => 0 < w)
    (map decay_weight (map (fun r => (current_year - season_end_year r)%Z) team_data)).
Proof.
  apply Forall_forall. intros w Hw.
  apply in_map_iff in Hw. destruct Hw as [d [<- _]]. apply decay_weight_pos.
Qed.

Lemma weights_sum_pos (team_data : list Row) (current_year : Z) :
  team_data <> [] ->
  0 < Np.sum
        (map decay_weight (map (fun r => (current_year - season_end_year r)%Z) team_data)).
Proof.
  intros Hne. apply np_sum_pos; [|apply weights_pos].
  destruct team_data; [contradiction|discriminate].
Qed.

(** ** The weighted-average series *)

Lemma column_eqb_eq (a b : column) : column_eqb a b = true <-> a = b.
Proof. destruct a, b; simpl; split; intros H; try reflexivity; discriminate. Qed.

Lemma label_eqb_eq (a b : label) : label_eqb a b = true <-> a = b.
Proof.
  destruct a as [c|], b as [d|]; simpl; try (split; intros H; (reflexivity || discriminate)).
  rewrite column_eqb_eq. split; intros H; [subst; reflexivity | inversion H; reflexivity].
Qed.

Lemma label_eqb_refl (a : label) : label_eqb a a = true.
Proof. apply label_eqb_eq. reflexivity. Qed.

Lemma label_eqb_neq (a b : label) : a <> b -> label_eqb a b = false.
Proof.
  intros Hne. destruct (label_eqb a b) eqn:E; [|reflexivity].
  apply label_eqb_eq in E. contradiction.
Qed.

Lemma series_get_set_same (d : Series) (k : label) (v : R) :
  series_get (dict_set d k v) k = Some v.
Proof.
  induction d as [|[k' v'] d IH]; simpl.
  - rewrite label_eqb_refl. reflexivity.
  - destruct (label_eqb k k') eqn:E; simpl; rewrite E; [reflexivity|exact IH].
Qed.

Lemma series_get_set_other (d : Series) (k k' : label) (v : R) :
  k' <> k -> series_get (dict_set d k v) k' = series_get d k'.
Proof.
  intros Hne. induction d as [|[k0 v0] d IH]; simpl.
  - rewrite (label_eqb_neq _ _ Hne). reflexivity.
  - destruct (label_eqb k k0) eqn:E; simpl.
    + apply label_eqb_eq in E. subst k0.
      rewrite (label_eqb_neq _ _ Hne). reflexivity.
    + destruct (label_eqb k' k0); [reflexivity|exact IH].
Qed.

Lemma series_select_set_form (s : Series) (features : list column) (v : R) :
  series_select (dict_set s RecentFormScore v) features = series_select s features.
Proof.
  induction features as [|f rest IH]; simpl.
  - reflexivity.
  - rewrite IH, series_get_set_other by discriminate. reflexivity.
Qed.

Lemma weights_as_row_weight (team_data : list Row) (current_year : Z) :
  map decay_weight (map (fun r => (current_year - season_end_year r)%Z) team_data)
  = map (row_weight current_year) team_data.
Proof. rewrite map_map. reflexivity. Qed.

Lemma np_average_column (team_data : list Row) (current_year : Z) (f : column) :
  team_data <> [] ->
  Np.average (map (col f) team_data) (map (row_weight current_year) team_data)
  = Ok (weighted_mean team_data current_year f).
Proof.
  intros Hne. rewrite np_average_value.
  - rewrite np_sum_zip_map. reflexivity.
  - rewrite <- weights_as_row_weight.
    pose proof (weights_sum_pos team_data current_year Hne). lra.
Qed.

Lemma column_eq_dec (a b : column) : {a = b} + {a <> b}.
Proof. decide equality. Defined.

Lemma average_features_ok (team_data : list Row) (current_year : Z) :
  team_data <> [] ->
  forall (fs : list column) (d : Series),
  exists d',
    average_features team_data (map (row_weight current_year) team_data) fs d
    = Ok d'
    /\ (forall f, In f fs ->
          series_get d' (Col f) = Some (weighted_mean team_data current_year f))
    /\ (forall k, (forall f, In f fs -> k <> Col f) ->
          series_get d' k = series_get d k).
Proof.
  intros Hne. induction fs as [|f rest IH]; intros d; simpl.
  - exists d. split; [reflexivity|]. split; [contradiction|reflexivity].
  - rewrite np_average_column by assumption.
    destruct (IH (dict_set d (Col f) (weighted_mean team_data current_year f)))
      as [d' [Hrun [Hin Hout]]].
    exists d'. split; [exact Hrun|]. split.
    + intros f' [<-|Hf'].
      * destruct (in_dec column_eq_dec f rest) as [Hr|Hr]; [apply Hin, Hr|].
        rewrite Hout.
        -- apply series_get_set_same.
        -- intros f' Hf' Heq. inversion Heq; subst. contradiction.
      * apply Hin, Hf'.
    + intros k Hk. rewrite Hout.
      * apply series_get_set_other. apply Hk. left. reflexivity.
      * intros f' Hf'. apply Hk. right. exact Hf'.
Qed.

Lemma series_select_map (s : Series) (h : column -> R) (features : list column) :
  (forall f, In f features -> series_get s (Col f) = Some (h f)) ->
  series_select s features = Some (map h features).
Proof.
  induction features as [|f rest IH]; intros H; simpl.
  - reflexivity.
  - rewrite (H f (or_introl eq_refl)), IH; [reflexivity|].
    intros f' Hf'. apply H. right. exact Hf'.
Qed.

(** On a non-empty frame [weighted_average] returns the weighted mean of
    every feature and the recent-form score, and advances the generator
    exactly as [calculate_recent_form_score] does. *)
Lemma weighted_average_ok
  (team_data : list Row) (features : list column) (current_year : Z) (g : G) :
  team_data <> [] ->
  exists s,
    weighted_average team_data features current_year g
    = (Ok s, snd (calculate_recent_form_score team_data current_year 3 g))
    /\ series_select s features
       = Some (map (weighted_mean team_data current_year) features)
    /\ series_get s RecentFormScore
       = Some (fst (calculate_recent_form_score team_data current_year 3 g))
    /\ forall f, In f features ->
         series_get s (Col f) = Some (weighted_mean team_data current_year f).
Proof.
  intros Hne.
  destruct (average_features_ok team_data current_year Hne features [])
    as [d' [Hrun [Hin _]]].
  unfold weighted_average, bind, lift_result.
  rewrite weights_as_row_weight, Hrun.
  destruct (calculate_recent_form_score team_data current_year 3 g) as [form g'] eqn:E.
  exists (dict_set d' RecentFormScore form). simpl.
  split; [reflexivity|]. split; [|split].
  - rewrite series_select_set_form. apply series_select_map, Hin.
  - apply series_get_set_same.
  - intros f Hf. rewrite series_get_set_other by discriminate. apply Hin, Hf.
Qed.


(** ** Recent form *)

Lemma recent_seasons_idempotent (team_data : list Row) (current_year n : Z) :
  recent_seasons (recent_seasons team_data current_year n) current_year n
  = recent_seasons team_data current_year n.
Proof.
  unfold recent_seasons. induction team_data as [|r l IH]; simpl.
  - reflexivity.
  - destruct (current_year - n <=? season_end_year r)%Z eqn:E; simpl.
    + rewrite E, IH. reflexivity.
    + exact IH.
Qed.

Lemma recent_form_few_rows (team_data : list Row) (current_year n : Z) (g : G) :
  (length (recent_seasons team_data current_year n) < 2)%nat ->
  calculate_recent_form_score team_data current_year n g = (0, g).
Proof.
  intros Hlt. unfold calculate_recent_form_score.
  apply Nat.ltb_lt in Hlt. rewrite Hlt. reflexivity.
Qed.

Lemma recent_form_bounds (team_data : list Row) (current_year n : Z) (g : G) :
  -3 <= fst (calculate_recent_form_score team_data current_year n g) <= 3.
Proof.
  unfold calculate_recent_form_score.
  destruct (length (recent_seasons team_data current_year n) <? 2)%nat;
    [simpl; lra|].
  destruct (2 <=? length _)%nat; [|simpl; lra].
  destruct (fit_abscissae _ g) as [xs g'].
  destruct (Np.polyfit_slope _ xs (map points _)); [|simpl; lra].
  destruct (Np.polyfit_slope _ xs (map position _)); [|simpl; lra].
  simpl. apply (py_clamp_bounds (-3) 3). lra.
Qed.

(** C4. The recent-form score reads only the rows with
    [season_end_year >= current_year - 3]; with fewer than two of them it
    is exactly 0; otherwise it is the clamp to [-3, 3] of
    [0.6 * (points_slope / 5) + 0.4 * (- position_slope / 2)] for the slopes
    of the two fitted lines (and 0 if a fit raises); in every case it lies
    in [-3, 3]. *)
Theorem recent_form_score_window_and_clamp
  (team_data : list Row) (current_year : Z) (g : G) :
  let recent := recent_seasons team_data current_year 3 in
  let sorted := Py.sort_by year_leb recent in
  let score := calculate_recent_form_score team_data current_year 3 g in
  (forall r, In r recent <->
             In r team_data /\ (current_year - 3 <= season_end_year r)%Z)
  /\ calculate_recent_form_score recent current_year 3 g = score
  /\ -3 <= fst score <= 3
  /\ if (length recent <? 2)%nat then score = (0, g)
     else
       let (xs, g') := fit_abscissae (normalized_years sorted) g in
       match Np.polyfit_slope lstsq_rank_deficient xs (map points sorted),
             Np.polyfit_slope lstsq_rank_deficient xs (map position sorted) with
       | Some points_slope, Some position_slope =>
           score = (Py.clamp (-3) 3
                      (0.6 * (points_slope / 5) + 0.4 * (- position_slope / 2)), g')
       | _, _ => score = (0, g')
       end.
Proof.
  intros recent sorted score. split; [|split; [|split]].
  - intros r. unfold recent, recent_seasons. rewrite filter_In, Z.leb_le. tauto.
  - unfold score, recent, calculate_recent_form_score.
    rewrite recent_seasons_idempotent. reflexivity.
  - apply recent_form_bounds.
  - unfold score, calculate_recent_form_score. fold recent.
    destruct (length recent <? 2)%nat eqn:Hlen; [reflexivity|].
    fold sorted.
    assert (Hs : (2 <=? length sorted)%nat = true).
    { apply Nat.leb_le. unfold sorted. rewrite sort_by_length.
      apply Nat.ltb_ge in Hlen. exact Hlen. }
    rewrite Hs.
    destruct (fit_abscissae (normalized_years sorted) g) as [xs g'].
    destruct (Np.polyfit_slope lstsq_rank_deficient xs (map points sorted))
      as [ps|]; [|reflexivity].
    destruct (Np.polyfit_slope lstsq_rank_deficient xs (map position sorted))
      as [qs|]; [|reflexivity].
    unfold Py.clamp. f_equal. f_equal. f_equal. lra.
Qed.

(** ** Weighted average *)


(** ** Prediction for one team *)

(** C3. Whatever the fitted model and the feature series, the adjusted
    prediction is [clamp(raw_position - 0.05 * recent_form_score, 1, 20)],
    where the raw position is the model's answer on the base features alone
    (changing the recent-form entry of the series leaves the model's input
    unchanged); it lies in [1, 20]. *)
Theorem adjusted_prediction_clamped
  (model : Forest) (features : list column) (s : Series)
  (X_team : list R) (form_score : R) (g : G) :
  series_select s features = Some X_team ->
  series_get s RecentFormScore = Some form_score ->
  let raw_position := forest_predict model X_team in
  adjusted_prediction model features s g
  = (Ok (Py.clamp 1 20 (raw_position - 0.05 * form_score)), g)
  /\ 1 <= Py.clamp 1 20 (raw_position - 0.05 * form_score) <= 20
  /\ forall other_form : R,
       series_select (dict_set s RecentFormScore other_form) features = Some X_team.
Proof.
  intros HX Hf raw_position. split; [|split].
  - unfold adjusted_prediction, bind, lookup, ret. rewrite HX, Hf.
    unfold Py.clamp. f_equal. f_equal. f_equal. f_equal.
    unfold raw_position. lra.
  - apply py_clamp_bounds. lra.
  - intros other. rewrite series_select_set_form. exact HX.
Qed.

Lemma team_prediction_bounds
  (model : Forest) (team_data : list Row) (features : list column)
  (current_year : Z) (g : G) :
  1 <= team_prediction model team_data features current_year g <= 20.
Proof. unfold team_prediction. apply py_clamp_bounds. lra. Qed.

(** The two steps that every call site chains. *)
Lemma predict_from_frame
  (model : Forest) (team_data : list Row) (features : list column)
  (current_year : Z) (g : G) :
  team_data <> [] ->
  bind (weighted_average team_data features current_year)
       (adjusted_prediction model features) g
  = (Ok (team_prediction model team_data features current_year g),
     snd (calculate_recent_form_score team_data current_year 3 g)).
Proof.
  intros Hne.
  destruct (weighted_average_ok team_data features current_year g Hne)
    as [s [Hrun [Hsel [Hform _]]]].
  unfold bind at 1. rewrite Hrun.
  unfold adjusted_prediction, bind, lookup, ret. rewrite Hsel, Hform.
  unfold team_prediction, Py.clamp. f_equal. f_equal. f_equal. f_equal. lra.
Qed.

(** ** The bootstrap loop *)

Lemma bootstrap_iteration_run
  (historical_data : list Row) (first : Row) (rest : list Row)
  (features : list column) (prediction_year : Z) (i : nat) (acc : list R) (g : G) :
  let team_bootstrap := team_rows (team first) (sample historical_data i) in
  let rf_boot := forest_fit (design features (sample historical_data i))
                            (map (col target) (sample historical_data i)) in
  bootstrap_iteration historical_data (first :: rest) features prediction_year i acc g
  = match team_bootstrap with
    | [] => (Ok acc, g)
    | _ => (Ok (acc ++ [team_prediction rf_boot team_bootstrap features
                          prediction_year g]),
            snd (calculate_recent_form_score team_bootstrap prediction_year 3 g))
    end.
Proof.
  intros team_bootstrap rf_boot. unfold bootstrap_iteration.
  fold team_bootstrap. fold rf_boot.
  destruct team_bootstrap as [|r tb] eqn:E; [reflexivity|].
  change (0 <? length (r :: tb))%nat with true. cbv iota.
  pose proof (predict_from_frame rf_boot (r :: tb) features prediction_year g
                ltac:(discriminate)) as Hp.
  unfold bind in *.
  destruct (weighted_average (r :: tb) features prediction_year g) as [[s|e] g1].
  - destruct (adjusted_prediction rf_boot features s g1) as [[v|e] g2];
      inversion Hp; subst; reflexivity.
  - discriminate.
Qed.

(** With a non-empty team frame the loop never raises, and everything it
    collects lies in [1, 20]. *)
Lemma bootstrap_loop_total
  (historical_data team_data : list Row) (features : list column)
  (prediction_year : Z) :
  team_data <> [] ->
  forall (seeds : list nat) (acc : list R) (g : G),
  exists new g',
    for_each (bootstrap_iteration historical_data team_data features prediction_year)
             seeds acc g = (Ok (acc ++ new), g')
    /\ Forall (fun p => 1 <= p <= 20) new.
Proof.
  intros Hne. destruct team_data as [|first rest]; [contradiction|]. clear Hne.
  induction seeds as [|i seeds IH]; intros acc g.
  - exists [], g. cbn [for_each]. unfold ret. rewrite app_nil_r. split; [reflexivity|constructor].
  - cbn [for_each]. unfold bind at 1. rewrite bootstrap_iteration_run.
    destruct (team_rows (team first) (sample historical_data i)) as [|r tb].
    + apply IH.
    + match goal with
      | |- context [for_each _ seeds (acc ++ [?v]) ?g1] =>
          destruct (IH (acc ++ [v]) g1) as [new [g' [Hrun Hb]]];
          exists (v :: new), g'
      end.
      rewrite Hrun, <- app_assoc. split; [reflexivity|].
      constructor; [apply team_prediction_bounds|exact Hb].
Qed.

(** When no pass finds the team, nothing is collected and the generator is
    left alone. *)
Lemma bootstrap_loop_skipped
  (historical_data : list Row) (first : Row) (rest : list Row)
  (features : list column) (prediction_year : Z) :
  forall (seeds : list nat) (acc : list R) (g : G),
  (forall i, In i seeds -> team_rows (team first) (sample historical_data i) = []) ->
  for_each (bootstrap_iteration historical_data (first :: rest) features
              prediction_year) seeds acc g = (Ok acc, g).
Proof.
  induction seeds as [|i seeds IH]; intros acc g Hskip.
  - reflexivity.
  - cbn [for_each]. unfold bind at 1. rewrite bootstrap_iteration_run.
    rewrite (Hskip i (or_introl eq_refl)).
    apply IH. intros j Hj. apply Hskip. right. exact Hj.
Qed.

(** ** NumPy: mean and percentile *)

Lemma mean_value_bounds (l : list R) (lo hi : R) :
  l <> [] ->
  Forall (fun x => lo <= x <= hi) l ->
  lo <= Np.mean_value l <= hi.
Proof.
  intros Hne Hb.
  assert (Hn : 0 < INR (length l)).
  { apply lt_0_INR. destruct l; [contradiction|simpl; lia]. }
  assert (Hs : lo * INR (length l) <= Np.sum l <= hi * INR (length l)).
  { clear Hne Hn. unfold Np.sum.
    induction Hb as [|x l Hx _ IH].
    - simpl. lra.
    - change (length (x :: l)) with (S (length l)). rewrite S_INR.
      simpl fold_right. lra. }
  unfold Np.mean_value. split.
  - apply Rmult_le_reg_r with (INR (length l)); [exact Hn|].
    unfold Rdiv. rewrite Rmult_assoc, Rinv_l by lra. lra.
  - apply Rmult_le_reg_r with (INR (length l)); [exact Hn|].
    unfold Rdiv. rewrite Rmult_assoc, Rinv_l by lra. lra.
Qed.

Lemma np_mean_nonempty (l : list R) :
  l <> [] -> Np.mean l = Finite (Np.mean_value l).
Proof. destruct l; [contradiction|reflexivity]. Qed.

Lemma np_std_nonempty (l : list R) :
  l <> [] -> exists se, Np.std l = Finite se.
Proof. destruct l; [contradiction|]. intros _. eexists. reflexivity. Qed.

(** The floor of a non-negative real, as the index it is used for. *)
Lemma floor_index_spec (h : R) :
  0 <= h ->
  INR (Z.to_nat (Int_part h)) <= h < INR (Z.to_nat (Int_part h)) + 1.
Proof.
  intros Hh. destruct (base_Int_part h) as [H1 H2].
  assert (Hk : (0 <= Int_part h)%Z).
  { apply Z.lt_succ_r. apply lt_IZR. rewrite succ_IZR. lra. }
  rewrite INR_IZR_INZ, Z2Nat.id by exact Hk. lra.
Qed.

Lemma floor_index_mono (h1 h2 : R) :
  0 <= h1 -> h1 <= h2 ->
  (Z.to_nat (Int_part h1) <= Z.to_nat (Int_part h2))%nat.
Proof.
  intros H0 Hle.
  pose proof (floor_index_spec h1 H0) as [A1 A2].
  pose proof (floor_index_spec h2 ltac:(lra)) as [B1 B2].
  apply Nat.lt_succ_r. apply INR_lt. rewrite S_INR. lra.
Qed.

Lemma floor_index_le (h : R) (n : nat) :
  0 <= h -> h <= INR n -> (Z.to_nat (Int_part h) <= n)%nat.
Proof.
  intros H0 Hle. pose proof (floor_index_spec h H0) as [A1 A2].
  apply INR_le. lra.
Qed.

Lemma nth_sorted (s : list R) :
  StronglySorted (fun a b => Np.Rleb a b = true) s ->
  forall i j, (i <= j < length s)%nat -> nth i s 0 <= nth j s 0.
Proof.
  induction 1 as [|x l Hs IH Hx]; intros i j Hij; simpl in Hij.
  - lia.
  - destruct i as [|i], j as [|j]; simpl; try lia.
    + lra.
    + rewrite Forall_forall in Hx. apply Rleb_true, Hx, nth_In. lia.
    + apply IH. lia.
Qed.

Lemma Rleb_total (a b : R) : Np.Rleb a b = false -> Np.Rleb b a = true.
Proof. rewrite Rleb_false, Rleb_true. lra. Qed.

Lemma Rleb_trans (a b c : R) :
  Np.Rleb a b = true -> Np.Rleb b c = true -> Np.Rleb a c = true.
Proof. rewrite !Rleb_true. lra. Qed.

Section Interpolation.
Variable s : list R.
Hypothesis s_sorted : StronglySorted (fun a b => Np.Rleb a b = true) s.
Hypothesis s_nonempty : (0 < length s)%nat.

(** The interpolated value lies between the two order statistics around
    the virtual index. *)
Lemma interpolate_between (h : R) :
  0 <= h <= INR (length s - 1) ->
  let k := Z.to_nat (Int_part h) in
  nth k s 0 <= Np.interpolate s h
  <= nth (Nat.min (S k) (length s - 1)) s 0.
Proof.
  intros [H0 Hn] k. unfold Np.interpolate. fold k.
  pose proof (floor_index_spec h H0) as [A1 A2]. fold k in A1, A2.
  assert (Hk : (k <= length s - 1)%nat) by (apply floor_index_le; assumption).
  assert (Hab : nth k s 0 <= nth (Nat.min (S k) (length s - 1)) s 0).
  { apply nth_sorted; [exact s_sorted|]. lia. }
  nra.
Qed.

Lemma interpolate_mono (h1 h2 : R) :
  0 <= h1 -> h1 <= h2 -> h2 <= INR (length s - 1) ->
  Np.interpolate s h1 <= Np.interpolate s h2.
Proof.
  intros H0 Hle Hn.
  pose proof (interpolate_between h1 ltac:(lra)) as B1.
  pose proof (interpolate_between h2 ltac:(lra)) as B2.
  cbv zeta in B1, B2.
  pose proof (floor_index_mono h1 h2 H0 Hle) as Hmono.
  pose proof (floor_index_le h2 (length s - 1) ltac:(lra) Hn) as Hk2.
  set (k1 := Z.to_nat (Int_part h1)) in *.
  set (k2 := Z.to_nat (Int_part h2)) in *.
  destruct (Nat.eq_dec k1 k2) as [Heq|Hneq].
  - unfold Np.interpolate. fold k1 k2. rewrite <- Heq.
    assert (Hab : nth k1 s 0 <= nth (Nat.min (S k1) (length s - 1)) s 0).
    { apply nth_sorted; [exact s_sorted|]. lia. }
    nra.
  - assert (Hmid : nth (Nat.min (S k1) (length s - 1)) s 0 <= nth k2 s 0).
    { apply nth_sorted; [exact s_sorted|]. lia. }
    lra.
Qed.

Lemma interpolate_bounds (h lo hi : R) :
  0 <= h <= INR (length s - 1) ->
  Forall (fun x => lo <= x <= hi) s ->
  lo <= Np.interpolate s h <= hi.
Proof.
  intros Hh Hb.
  pose proof (interpolate_between h Hh) as B. cbv zeta in B.
  pose proof (floor_index_le h (length s - 1) ltac:(lra) ltac:(lra)) as Hk.
  rewrite Forall_forall in Hb.
  assert (H1 : lo <= nth (Z.to_nat (Int_part h)) s 0 <= hi)
    by (apply Hb, nth_In; lia).
  assert (H2 : lo <= nth (Nat.min (S (Z.to_nat (Int_part h))) (length s - 1)) s 0 <= hi)
    by (apply Hb, nth_In; lia).
  lra.
Qed.

End Interpolation.

Lemma np_percentile_nonempty (a : list R) (q : R) :
  a <> [] -> 0 <= q <= 100 ->
  Np.percentile percentile_empty a q
  = Ok (Finite (Np.interpolate (Py.sort_by Np.Rleb a)
                               (INR (length a - 1) * (q / 100)))).
Proof.
  intros Hne [H0 H1]. unfold Np.percentile.
  destruct (Rlt_dec q 0); [lra|]. destruct (Rlt_dec 100 q); [lra|].
  destruct a; [contradiction|reflexivity].
Qed.

Lemma virtual_index_range (n : nat) (q : R) :
  0 <= q <= 100 -> 0 <= INR n * (q / 100) <= INR n.
Proof. intros Hq. pose proof (pos_INR n). nra. Qed.

(** ** The confidence interval *)

Lemma interval_statistics_errors (predictions : list R) (level : R) (e : exn) :
  interval_statistics predictions level = Err e ->
  e = PercentileRange \/ e = IndexError.
Proof.
  unfold interval_statistics, Np.percentile, result_bind.
  repeat match goal with
         | |- context [if ?c then _ else _] => destruct c
         | |- context [match ?l with [] => _ | _ :: _ => _ end] => destruct l
         | |- context [match percentile_empty with _ => _ end] =>
             destruct percentile_empty
         end;
    intros H; inversion H; auto.
Qed.

Lemma bootstrap_empty_frame_raises
  (historical_data : list Row) (features : list column) (prediction_year : Z)
  (n : nat) (g : G) :
  bootstrap_predictions historical_data [] features prediction_year (S n) g
  = (Err IndexError, g).
Proof. reflexivity. Qed.

(** The record returned after a loop that collected something, when both
    percentiles are in range. *)
Lemma bootstrap_interval_value
  (historical_data team_data : list Row) (features : list column)
  (prediction_year : Z) (n_bootstrap : nat) (level : R) (g g' : G)
  (collected : list R) :
  bootstrap_predictions historical_data team_data features prediction_year
    n_bootstrap g = (Ok collected, g') ->
  collected <> [] ->
  0 <= (1 - level) / 2 * 100 <= 100 ->
  0 <= (1 - (1 - level) / 2) * 100 <= 100 ->
  let s := Py.sort_by Np.Rleb collected in
  let n1 := INR (length collected - 1) in
  bootstrap_confidence_interval_recent_form historical_data team_data features
    prediction_year n_bootstrap level g
  = (Ok {| prediction := Finite (Np.mean_value collected);
           lower_bound :=
             Finite (Np.interpolate s (n1 * ((1 - level) / 2 * 100 / 100)));
           upper_bound :=
             Finite (Np.interpolate s (n1 * ((1 - (1 - level) / 2) * 100 / 100)));
           standard_error := Np.std collected;
           confidence_level := level |}, g').
Proof.
  intros Hrun Hne Hq1 Hq2 s n1.
  unfold bootstrap_confidence_interval_recent_form, bind, lift_result.
  rewrite Hrun. unfold interval_statistics.
  rewrite !np_percentile_nonempty by assumption. simpl result_bind.
  rewrite np_mean_nonempty by assumption. reflexivity.
Qed.


(** C2 (amended). When every pass is skipped nothing guards the
    statistics: the estimator evaluates them on the empty list.  It raises
    no error of the kind [InsufficientBootstrapSamples]; at a confidence
    level that gives valid percentiles the point estimate and the standard
    error are [nan], and the bounds are what [np.percentile] makes of an
    empty array. *)
Theorem bootstrap_without_predictions
  (historical_data team_data : list Row) (features : list column)
  (prediction_year : Z) (n_bootstrap : nat) (level : R) (g : G) :
  (n_bootstrap = 0%nat
   \/ exists first rest,
        team_data = first :: rest
        /\ forall i, (i < n_bootstrap)%nat ->
             team_rows (team first) (sample historical_data i) = []) ->
  let outcome :=
    bootstrap_confidence_interval_recent_form historical_data team_data features
      prediction_year n_bootstrap level g in
  bootstrap_predictions historical_data team_data features prediction_year
    n_bootstrap g = (Ok [], g)
  /\ outcome = (interval_statistics [] level, g)
  /\ ~ fails_with InsufficientBootstrapSamples (fst outcome)
  /\ (-1 <= level <= 1 ->
      fst outcome
      = match percentile_empty with
        | Some bound =>
            Ok {| prediction := NaN;
                  lower_bound := bound;
                  upper_bound := bound;
                  standard_error := NaN;
                  confidence_level := level |}
        | None => Err IndexError
        end).
Proof.
  intros Hskip outcome.
  assert (Hloop : bootstrap_predictions historical_data team_data features
                    prediction_year n_bootstrap g = (Ok [], g)).
  { destruct Hskip as [-> | [first [rest [-> Hs]]]].
    - reflexivity.
    - apply bootstrap_loop_skipped. intros i Hi. apply Hs.
      apply in_seq in Hi. lia. }
  assert (Hout : outcome = (interval_statistics [] level, g)).
  { unfold outcome, bootstrap_confidence_interval_recent_form, bind, lift_result.
    rewrite Hloop. reflexivity. }
  split; [exact Hloop|]. split; [exact Hout|]. split.
  - rewrite Hout. simpl. intros [e [He Hk]].
    apply interval_statistics_errors in He. destruct He; subst; discriminate.
  - intros Hlevel. rewrite Hout. simpl.
    unfold interval_statistics, Np.percentile.
    destruct (Rlt_dec ((1 - level) / 2 * 100) 0); [lra|].
    destruct (Rlt_dec 100 ((1 - level) / 2 * 100)); [lra|].
    destruct (Rlt_dec ((1 - (1 - level) / 2) * 100) 0); [lra|].
    destruct (Rlt_dec 100 ((1 - (1 - level) / 2) * 100)); [lra|].
    destruct percentile_empty; reflexivity.
Qed.

(** ** Reproducibility *)






Lemma normalized_years_length (l : list Row) :
  length (normalized_years l) = length l.
Proof. unfold normalized_years. rewrite !length_map. reflexivity. Qed.




(** ** Cross-validation *)





(** What one test row adds to a fold: the prediction is made from the
    team's rows of the training window. *)
Lemma cv_predict_row_run
  (rf_cv : Forest) (train_data : list Row) (features : list column)
  (target : column) (name : string) (row : Row)
  (fold_predictions fold_actuals : list R) (g : G) :
  team_rows name train_data <> [] ->
  cv_predict_row rf_cv train_data features target name row
    (fold_predictions, fold_actuals) g
  = (Ok (fold_predictions
           ++ [team_prediction rf_cv (team_rows name train_data) features
                 (season_end_year row) g],
         fold_actuals ++ [col target row]),
     snd (calculate_recent_form_score (team_rows name train_data)
            (season_end_year row) 3 g)).
Proof.
  intros Hne. unfold cv_predict_row.
  destruct (team_rows name train_data) as [|r l] eqn:E; [contradiction|].
  change (length (r :: l) =? 0)%nat with false. cbv iota.
  pose proof (predict_from_frame rf_cv (r :: l) features (season_end_year row) g
                ltac:(discriminate)) as Hp.
  unfold bind in *.
  destruct (weighted_average (r :: l) features (season_end_year row) g)
    as [[s|e] g1]; [|discriminate].
  destruct (adjusted_prediction rf_cv features s g1) as [[v|e] g2];
    inversion Hp; subst; reflexivity.
Qed.


(** C10. The cross-validation score does not depend on [prediction_year]:
    the folds are the three fixed periods and the argument is never read. *)
Theorem cross_validate_ignores_prediction_year
  (data : list Row) (features : list column) (target : column)
  (year1 year2 : Z) (g : G) :
  cross_validate_time_series data features target year1 g
  = cross_validate_time_series data features target year2 g
  /\ map (fun p => (train_end p, test_start p, test_end p)) cv_periods
     = [(2013, 2014, 2016); (2016, 2017, 2019); (2019, 2020, 2023)]%Z.
Proof. split; reflexivity. Qed.

(** ** The prediction run *)

Lemma for_each_error {A S : Type} (body : A -> S -> M S) (ok : exn -> Prop) :
  (forall x s g e g', body x s g = (Err e, g') -> ok e) ->
  forall l s g e g', for_each body l s g = (Err e, g') -> ok e.
Proof.
  intros Hbody. induction l as [|x l IH]; intros s g e g' H.
  - discriminate.
  - cbn [for_each] in H. unfold bind in H.
    destruct (body x s g) as [[s'|e0] g0] eqn:E.
    + eapply IH, H.
    + inversion H; subst. eapply Hbody, E.
Qed.

Lemma bootstrap_interval_errors
  (historical_data team_data : list Row) (features : list column)
  (prediction_year : Z) (n_bootstrap : nat) (level : R) (g g' : G) (e : exn) :
  team_data <> [] ->
  bootstrap_confidence_interval_recent_form historical_data team_data features
    prediction_year n_bootstrap level g = (Err e, g') ->
  e = PercentileRange \/ e = IndexError.
Proof.
  intros Hne H.
  destruct (bootstrap_loop_total historical_data team_data features prediction_year
              Hne (seq 0 n_bootstrap) [] g) as [new [g1 [Hloop _]]].
  unfold bootstrap_confidence_interval_recent_form, bootstrap_predictions,
    bind, lift_result in H.
  rewrite Hloop in H. inversion H as [[He Hg]].
  eapply interval_statistics_errors, He.
Qed.

Lemma predict_team_errors
  (historical_data : list Row) (rf_model : Forest) (prediction_year : Z)
  (level : R) (name : string) (acc : list (string * R) * list TeamInterval)
  (g g' : G) (e : exn) :
  predict_team historical_data rf_model prediction_year level name acc g
  = (Err e, g') ->
  e = PercentileRange \/ e = IndexError.
Proof.
  unfold predict_team. destruct acc as [predictions intervals].
  destruct (team_rows name historical_data) as [|r l] eqn:E; [discriminate|].
  change (length (r :: l) =? 0)%nat with false. cbv iota.
  unfold bind at 1.
  destruct (bootstrap_confidence_interval_recent_form historical_data (r :: l)
              features prediction_year 100 level g) as [[ci|e0] g0] eqn:Hci.
  - pose proof (predict_from_frame rf_model (r :: l) features prediction_year g0
                  ltac:(discriminate)) as Hp.
    unfold bind in *.
    destruct (weighted_average (r :: l) features prediction_year g0)
      as [[s|e1] g1]; [|discriminate].
    destruct (adjusted_prediction rf_model features s g1) as [[v|e2] g2];
      [discriminate|discriminate].
  - intros H. inversion H; subst.
    eapply bootstrap_interval_errors; [|exact Hci]. discriminate.
Qed.

(** C8. When no row of the dataset precedes the prediction year the run
    raises the error for an empty training set and yields no prediction;
    otherwise the forest is refitted on the earlier rows, the per-team loop
    runs, and the run cannot end with that error. *)
Theorem compare_predictions_empty_training_set
  (data : list Row) (teams : list string) (actual_standings : list (string * R))
  (prediction_year : Z) (level : R) (g : G) :
  let historical_data :=
    filter (fun r => (season_end_year r <? prediction_year)%Z) data in
  let run := compare_predictions_with_confidence data teams actual_standings
               prediction_year level g in
  match historical_data with
  | [] =>
      run = (Err (NoHistoricalData prediction_year), g)
      /\ fails_with EmptyTrainingSet (fst run)
  | _ :: _ =>
      let rf_model := forest_fit (design features historical_data)
                                 (map (col target) historical_data) in
      run = bind (for_each (predict_team historical_data rf_model prediction_year
                              level) teams ([], []))
                 (fun acc => ret (assign_ranks (fst acc), snd acc)) g
      /\ ~ fails_with EmptyTrainingSet (fst run)
  end.
Proof.
  intros historical_data run. unfold run, compare_predictions_with_confidence.
  fold historical_data.
  destruct historical_data as [|r l] eqn:E.
  - split; [reflexivity|]. simpl.
    exists (NoHistoricalData prediction_year). split; reflexivity.
  - change (length (r :: l) =? 0)%nat with false. cbv iota.
    set (rf_model := forest_fit (design features (r :: l))
                                (map (col target) (r :: l))).
    assert (Heq : bind (for_each (predict_team (r :: l) rf_model prediction_year
                                    level) teams ([], []))
                    (fun acc : list (string * R) * list TeamInterval =>
                       let (predictions, confidence_intervals) := acc in
                       ret (assign_ranks predictions, confidence_intervals)) g
                  = bind (for_each (predict_team (r :: l) rf_model prediction_year
                                      level) teams ([], []))
                      (fun acc => ret (assign_ranks (fst acc), snd acc)) g).
    { unfold bind.
      destruct (for_each _ teams ([], []) g) as [[[p c]|e] g0]; reflexivity. }
    split; [exact Heq|].
    rewrite Heq. unfold bind.
    destruct (for_each (predict_team (r :: l) rf_model prediction_year level)
                teams ([], []) g) as [[acc|e] g0] eqn:Hloop.
    + simpl. intros [e [He _]]. discriminate.
    + simpl. intros [e' [He Hk]]. inversion He; subst e'.
      assert (Hor : e = PercentileRange \/ e = IndexError).
      { eapply (for_each_error
                  (predict_team (r :: l) rf_model prediction_year level)
                  (fun e => e = PercentileRange \/ e = IndexError)).
        - intros x s g1 e1 g1' H1. eapply predict_team_errors, H1.
        - exact Hloop. }
      destruct Hor; subst; discriminate.
Qed.

(** * Further properties *)

(** ** The weighted average: keys, empty frame, reference year *)


(** Every column of the series, in or out of the feature list. *)
Lemma weighted_average_columns
  (team_data : list Row) (features : list column) (current_year : Z) (g : G) :
  team_data <> [] ->
  exists s,
    weighted_average team_data features current_year g
    = (Ok s, snd (calculate_recent_form_score team_data current_year 3 g))
    /\ series_select s features
       = Some (map (weighted_mean team_data current_year) features)
    /\ series_get s RecentFormScore
       = Some (fst (calculate_recent_form_score team_data current_year 3 g))
    /\ forall c,
         series_get s (Col c)
         = if in_dec column_eq_dec c features
           then Some (weighted_mean team_data current_year c)
           else None.
Proof.
  intros Hne.
  destruct (average_features_ok team_data current_year Hne features [])
    as [d' [Hrun [Hin Hout]]].
  unfold weighted_average, bind, lift_result.
  rewrite weights_as_row_weight, Hrun.
  destruct (calculate_recent_form_score team_data current_year 3 g) as [form g'] eqn:E.
  exists (dict_set d' RecentFormScore form). simpl.
  split; [reflexivity|]. split; [|split].
  - rewrite series_select_set_form. apply series_select_map, Hin.
  - apply series_get_set_same.
  - intros c. rewrite series_get_set_other by discriminate.
    destruct (in_dec column_eq_dec c features) as [Hc|Hc].
    + apply Hin, Hc.
    + rewrite Hout; [reflexivity|].
      intros f Hf Heq. inversion Heq; subst. contradiction.
Qed.



(** X2. On an empty frame the weights sum to zero: with at least one
    feature [weighted_average] raises the [ZeroDivisionError] of
    [np.average]; with no feature it returns the series that holds the
    recent-form score 0 alone.  The generator is not used. *)
Theorem weighted_average_empty_frame
  (features : list column) (current_year : Z) (g : G) :
  weighted_average [] features current_year g
  = (match features with
     | [] => Ok [(RecentFormScore, 0)]
     | _ :: _ => Err ZeroDivisionError
     end, g).
Proof.
  unfold weighted_average, bind, lift_result.
  destruct features as [|f rest]; [reflexivity|].
  cbn [map average_features]. unfold Np.average. cbn [Np.sum fold_right].
  destruct (Req_dec_T 0 0) as [_|Hne]; [reflexivity|].
  exfalso. apply Hne. reflexivity.
Qed.

Lemma series_select_missing (s : Series) (fs : list column) (c : column) :
  In c fs -> series_get s (Col c) = None -> series_select s fs = None.
Proof.
  induction fs as [|f rest IH]; intros Hin Hnone; [contradiction|].
  simpl. destruct Hin as [->|Hin].
  - rewrite Hnone. reflexivity.
  - rewrite (IH Hin Hnone). destruct (series_get s (Col f)); reflexivity.
Qed.

(** X3. The series that [weighted_average] returns holds the form score
    and the columns of its feature list, and no other column: selecting
    features of that list finds a value for each, and a prediction that
    selects any other column raises [KeyError] before the regressor is
    asked. *)
Theorem weighted_series_keys
  (team_data : list Row) (features : list column) (current_year : Z) (g g' : G)
  (s : Series) :
  team_data <> [] ->
  weighted_average team_data features current_year g = (Ok s, g') ->
  (forall c, series_get s (Col c) = None <-> ~ In c features)
  /\ series_get s RecentFormScore <> None
  /\ forall (model : Forest) (selected : list column) (g0 : G),
       ((forall c, In c selected -> In c features) ->
        exists values,
          series_select s selected = Some values
          /\ length values = length selected)
       /\ ((exists c, In c selected /\ ~ In c features) ->
           adjusted_prediction model selected s g0 = (Err KeyError, g0)).
Proof.
  intros Hne Hrun.
  destruct (weighted_average_columns team_data features current_year g Hne)
    as [s0 [H0 [_ [Hform Hcol]]]].
  rewrite H0 in Hrun. inversion Hrun; subst s0. clear Hrun.
  split; [|split].
  - intros c. rewrite Hcol.
    destruct (in_dec column_eq_dec c features); split; intros H;
      try discriminate; try contradiction; auto.
  - rewrite Hform. discriminate.
  - intros model selected g0. split.
    + intros Hincl.
      assert (Hsel : series_select s selected
                     = Some (map (weighted_mean team_data current_year) selected)).
      { apply series_select_map. intros f Hf. rewrite Hcol.
        destruct (in_dec column_eq_dec f features) as [_|Hn]; [reflexivity|].
        exfalso. apply Hn, Hincl, Hf. }
      eexists. split; [exact Hsel|]. apply length_map.
    + intros [c [Hc Hn]].
      assert (Hnone : series_get s (Col c) = None).
      { rewrite Hcol. destruct (in_dec column_eq_dec c features);
          [contradiction|reflexivity]. }
      unfold adjusted_prediction, bind, lookup.
      rewrite (series_select_missing s selected c Hc Hnone). reflexivity.
Qed.

(** ** The weighted average: row order and translation in time *)











Lemma shift_seasons_col (k : Z) (df : list Row) (f : column) :
  map (col f) (shift_seasons k df) = map (col f) df.
Proof.
  unfold shift_seasons. rewrite map_map. apply map_ext. intros r.
  destruct f; reflexivity.
Qed.

Lemma average_features_columns (l l' : list Row) (w : list R)
  (fs : list column) (d : Series) :
  (forall f, map (col f) l = map (col f) l') ->
  average_features l w fs d = average_features l' w fs d.
Proof.
  intros Hcol. revert d. induction fs as [|f rest IH]; intros d; simpl.
  - reflexivity.
  - rewrite (Hcol f). destruct (Np.average _ w); [apply IH|reflexivity].
Qed.

Lemma shift_seasons_recent (k : Z) (df : list Row) (current_year n : Z) :
  recent_seasons (shift_seasons k df) (current_year + k) n
  = shift_seasons k (recent_seasons df current_year n).
Proof.
  unfold recent_seasons, shift_seasons. induction df as [|r l IH]; simpl.
  - reflexivity.
  - replace (current_year + k - n <=? season_end_year r + k)%Z
      with (current_year - n <=? season_end_year r)%Z.
    + destruct (current_year - n <=? season_end_year r)%Z; simpl; rewrite IH;
        reflexivity.
    + destruct (current_year - n <=? season_end_year r)%Z eqn:E; symmetry.
      * apply Z.leb_le. apply Z.leb_le in E. lia.
      * apply Z.leb_gt. apply Z.leb_gt in E. lia.
Qed.

Lemma shift_seasons_sorted (k : Z) (df : list Row) :
  Py.sort_by year_leb (shift_seasons k df)
  = shift_seasons k (Py.sort_by year_leb df).
Proof.
  unfold shift_seasons.
  set (mv := fun r => {| team := team r; season_end_year := (season_end_year r + k)%Z;
                         points := points r; gf := gf r; ga := ga r; gd := gd r;
                         won := won r; drawn := drawn r; lost := lost r;
                         position := position r |}).
  assert (Hins : forall x l,
            Py.insert_by year_leb (mv x) (map mv l)
            = map mv (Py.insert_by year_leb x l)).
  { intros x l. induction l as [|y l IH]; simpl; [reflexivity|].
    replace (year_leb (mv x) (mv y)) with (year_leb x y).
    - destruct (year_leb x y); simpl; [reflexivity|]. rewrite IH. reflexivity.
    - unfold year_leb, mv. simpl.
      destruct (season_end_year x <=? season_end_year y)%Z eqn:E; symmetry.
      + apply Z.leb_le. apply Z.leb_le in E. lia.
      + apply Z.leb_gt. apply Z.leb_gt in E. lia. }
  induction df as [|x l IH]; simpl; [reflexivity|].
  rewrite IH. apply Hins.
Qed.

Lemma fold_min_shift (k d : Z) (l : list Z) :
  fold_right Z.min (d + k)%Z (map (fun y => (y + k)%Z) l)
  = (fold_right Z.min d l + k)%Z.
Proof.
  induction l as [|y l IH]; simpl; [reflexivity|]. rewrite IH. lia.
Qed.

Lemma series_min_shift (k x : Z) (l : list Z) :
  series_min (map (fun y => (y + k)%Z) (x :: l)) = (series_min (x :: l) + k)%Z.
Proof.
  unfold series_min.
  change (hd 0%Z (map (fun y => (y + k)%Z) (x :: l))) with (x + k)%Z.
  change (hd 0%Z (x :: l)) with x.
  apply fold_min_shift.
Qed.

Lemma shift_seasons_years (k : Z) (df : list Row) :
  map season_end_year (shift_seasons k df)
  = map (fun y => (y + k)%Z) (map season_end_year df).
Proof. unfold shift_seasons. rewrite !map_map. reflexivity. Qed.

Lemma shift_seasons_normalized (k : Z) (df : list Row) :
  normalized_years (shift_seasons k df) = normalized_years df.
Proof.
  unfold normalized_years. rewrite shift_seasons_years.
  destruct (map season_end_year df) as [|x l]; [reflexivity|].
  rewrite series_min_shift, map_map. apply map_ext. intros a. lia.
Qed.

(** X5. Only the distances in time matter: moving every season of the
    frame and the reference year by the same number of years changes
    neither the series nor the use of the generator. *)
Theorem weighted_average_translation
  (k : Z) (team_data : list Row) (features : list column) (current_year : Z) (g : G) :
  weighted_average (shift_seasons k team_data) features (current_year + k) g
  = weighted_average team_data features current_year g.
Proof.
  assert (Hform : calculate_recent_form_score (shift_seasons k team_data)
                    (current_year + k) 3 g
                  = calculate_recent_form_score team_data current_year 3 g).
  { unfold calculate_recent_form_score.
    rewrite shift_seasons_recent, shift_seasons_sorted, shift_seasons_normalized.
    unfold shift_seasons at 1 2. rewrite !length_map.
    change (map points (shift_seasons k ?l)) with (map (col Points) (shift_seasons k l)).
    change (map position (shift_seasons k ?l)) with (map (col Position) (shift_seasons k l)).
    rewrite !shift_seasons_col. reflexivity. }
  unfold weighted_average, bind, lift_result.
  assert (Hw : map decay_weight
                 (map (fun r => (current_year + k - season_end_year r)%Z)
                      (shift_seasons k team_data))
               = map decay_weight
                   (map (fun r => (current_year - season_end_year r)%Z) team_data)).
  { unfold shift_seasons. rewrite !map_map. apply map_ext. intros r.
    cbn [season_end_year]. f_equal. lia. }
  rewrite Hw.
  rewrite (average_features_columns (shift_seasons k team_data) team_data _ features []
             (shift_seasons_col k team_data)).
  destruct (average_features team_data _ features []); [|reflexivity].
  rewrite Hform. reflexivity.
Qed.

(** ** Recent form: two seasons, the generator, the recorded details *)






(** X7. [calculate_recent_form_score] uses the global generator in one
    case only, a recent window of two or more rows that are all of one
    season; it then draws one variate per row of the window.  In every
    other case the generator is left as it was. *)
Theorem recent_form_generator_use
  (team_data : list Row) (current_year : Z) (g : G) :
  snd (calculate_recent_form_score team_data current_year 3 g)
  = if draws_noise team_data current_year
    then snd (Np.random_normal G standard_normal 0 0.01
                (length (recent_seasons team_data current_year 3)) g)
    else g.
Proof.
  unfold draws_noise, calculate_recent_form_score.
  set (recent := recent_seasons team_data current_year 3).
  set (sorted := Py.sort_by year_leb recent).
  assert (Hls : length sorted = length recent) by apply sort_by_length.
  destruct (length recent <? 2)%nat eqn:Hlen.
  - apply Nat.ltb_lt in Hlen.
    assert (H2 : (2 <=? length recent)%nat = false) by (apply Nat.leb_gt; lia).
    rewrite H2. reflexivity.
  - apply Nat.ltb_ge in Hlen.
    assert (H2 : (2 <=? length recent)%nat = true) by (apply Nat.leb_le; lia).
    rewrite Hls, H2. cbn [andb].
    unfold fit_abscissae. rewrite normalized_years_length, Hls.
    destruct (Np.unique_count (normalized_years sorted) <? 2)%nat.
    + destruct (Np.random_normal G standard_normal 0 0.01 (length recent) g)
        as [noise g'].
      destruct (Np.polyfit_slope _ _ (map points sorted)); [|reflexivity].
      destruct (Np.polyfit_slope _ _ (map position sorted)); reflexivity.
    + destruct (Np.polyfit_slope _ _ (map points sorted)); [|reflexivity].
      destruct (Np.polyfit_slope _ _ (map position sorted)); reflexivity.
Qed.


(** ** The bootstrap: what is collected, and the interval at the edges *)

Lemma in_frame_rows (name : string) (df : list Row) :
  in_frame name df = false <-> team_rows name df = [].
Proof.
  unfold in_frame. destruct (team_rows name df); simpl; split; intros H;
    try reflexivity; discriminate.
Qed.

Lemma bootstrap_loop_count
  (historical_data : list Row) (first : Row) (rest : list Row)
  (features : list column) (prediction_year : Z) :
  forall (seeds : list nat) (acc : list R) (g : G),
  exists new g',
    for_each (bootstrap_iteration historical_data (first :: rest) features
                prediction_year) seeds acc g = (Ok (acc ++ new), g')
    /\ length new
       = length (filter (fun i => in_frame (team first) (sample historical_data i))
                        seeds)
    /\ Forall (fun p => 1 <= p <= 20) new.
Proof.
  induction seeds as [|i seeds IH]; intros acc g.
  - exists [], g. cbn [for_each]. unfold ret. rewrite app_nil_r.
    split; [reflexivity|]. split; [reflexivity|constructor].
  - cbn [for_each filter]. unfold bind at 1. rewrite bootstrap_iteration_run.
    unfold in_frame at 1.
    destruct (team_rows (team first) (sample historical_data i)) as [|r tb].
    + apply IH.
    + match goal with
      | |- context [for_each _ seeds (acc ++ [?v]) ?g1] =>
          destruct (IH (acc ++ [v]) g1) as [new [g' [Hrun [Hlen Hb]]]];
          exists (v :: new), g'
      end.
      rewrite Hrun, <- app_assoc. split; [reflexivity|]. split.
      * cbn. rewrite Hlen. reflexivity.
      * constructor; [apply team_prediction_bounds|exact Hb].
Qed.



(** X11. A level in [-1, 0] is accepted and turns the interval round: the
    lower bound is the higher percentile, so [upper_bound <= lower_bound]. *)
Theorem bootstrap_negative_level_swaps_bounds
  (historical_data team_data : list Row) (features : list column)
  (prediction_year : Z) (n_bootstrap : nat) (level : R) (g g' : G)
  (collected : list R) :
  bootstrap_predictions historical_data team_data features prediction_year
    n_bootstrap g = (Ok collected, g') ->
  collected <> [] ->
  -1 <= level <= 0 ->
  exists ci lo hi,
    bootstrap_confidence_interval_recent_form historical_data team_data features
      prediction_year n_bootstrap level g = (Ok ci, g')
    /\ lower_bound ci = Finite lo
    /\ upper_bound ci = Finite hi
    /\ hi <= lo.
Proof.
  intros Hrun Hne Hlevel.
  pose proof (bootstrap_interval_value historical_data team_data features
                prediction_year n_bootstrap level g g' collected Hrun Hne
                ltac:(lra) ltac:(lra)) as Hval.
  cbv zeta in Hval.
  eexists. eexists. eexists. split; [exact Hval|].
  cbn [lower_bound upper_bound]. split; [reflexivity|]. split; [reflexivity|].
  set (s := Py.sort_by Np.Rleb collected).
  assert (Hs : StronglySorted (fun a b => Np.Rleb a b = true) s)
    by (apply sort_by_sorted; [apply Rleb_total | apply Rleb_trans]).
  assert (Hlen : length s = length collected) by apply sort_by_length.
  assert (Hpos : (0 < length s)%nat).
  { rewrite Hlen. destruct collected; [contradiction|simpl; lia]. }
  pose proof (pos_INR (length collected - 1)) as Hn1.
  apply (interpolate_mono s Hs Hpos).
  - apply Rmult_le_pos; [exact Hn1|lra].
  - apply Rmult_le_compat_l; [exact Hn1|lra].
  - rewrite Hlen.
    apply (virtual_index_range (length collected - 1) ((1 - level) / 2 * 100)). lra.
Qed.

Lemma collected_in_range
  (historical_data team_data : list Row) (features : list column)
  (prediction_year : Z) (n_bootstrap : nat) (g g' : G) (collected : list R) :
  bootstrap_predictions historical_data team_data features prediction_year
    n_bootstrap g = (Ok collected, g') ->
  Forall (fun p => 1 <= p <= 20) collected.
Proof.
  intros Hrun. destruct team_data as [|first rest].
  - destruct n_bootstrap as [|n].
    + inversion Hrun; subst. constructor.
    + rewrite bootstrap_empty_frame_raises in Hrun. discriminate.
  - destruct (bootstrap_loop_total historical_data (first :: rest) features
                prediction_year ltac:(discriminate) (seq 0 n_bootstrap) [] g)
      as [new [g1 [Hloop Hb]]].
    unfold bootstrap_predictions in Hrun. rewrite Hloop in Hrun.
    inversion Hrun; subst. exact Hb.
Qed.

Lemma squared_deviations_bounds (l : list R) (m a b : R) :
  Forall (fun x => a <= x <= b) l -> a <= m <= b ->
  Forall (fun y => 0 <= y <= (b - a) * (b - a))
         (map (fun x => (x - m) * (x - m)) l).
Proof.
  intros Hl Hm. induction Hl as [|x l Hx _ IH]; simpl; constructor.
  - pose proof (Rle_0_sqr (x - m)) as H0. unfold Rsqr in H0.
    pose proof (Rmult_le_pos (b - a - (x - m)) (b - a + (x - m))
                  ltac:(lra) ltac:(lra)) as H1.
    split; lra.
  - exact IH.
Qed.


(** X13. The standard error is the root of the mean squared deviation from
    the point estimate; it lies between 0 and 19, the width of the range
    1..20 that holds every collected prediction. *)
Theorem bootstrap_standard_error_bounds
  (historical_data team_data : list Row) (features : list column)
  (prediction_year : Z) (n_bootstrap : nat) (level : R) (g g' : G)
  (collected : list R) :
  bootstrap_predictions historical_data team_data features prediction_year
    n_bootstrap g = (Ok collected, g') ->
  collected <> [] ->
  -1 <= level <= 1 ->
  exists ci point se,
    bootstrap_confidence_interval_recent_form historical_data team_data features
      prediction_year n_bootstrap level g = (Ok ci, g')
    /\ prediction ci = Finite point
    /\ standard_error ci = Finite se
    /\ se * se = Np.mean_value (map (fun p => (p - point) * (p - point)) collected)
    /\ 0 <= se <= 19.
Proof.
  intros Hrun Hne Hlevel.
  pose proof (collected_in_range _ _ _ _ _ _ _ _ Hrun) as Hrange.
  pose proof (mean_value_bounds collected 1 20 Hne Hrange) as Hm.
  set (m := Np.mean_value collected) in *.
  set (sq := map (fun p => (p - m) * (p - m)) collected).
  assert (Hsq : 0 <= Np.mean_value sq <= 361).
  { replace 361 with ((20 - 1) * (20 - 1)) by lra.
    apply mean_value_bounds.
    - unfold sq. destruct collected; [contradiction|discriminate].
    - apply squared_deviations_bounds; assumption. }
  exists {| prediction := Finite m;
            lower_bound :=
              Finite (Np.interpolate (Py.sort_by Np.Rleb collected)
                        (INR (length collected - 1) * ((1 - level) / 2 * 100 / 100)));
            upper_bound :=
              Finite (Np.interpolate (Py.sort_by Np.Rleb collected)
                        (INR (length collected - 1)
                         * ((1 - (1 - level) / 2) * 100 / 100)));
            standard_error := Np.std collected;
            confidence_level := level |}, m, (sqrt (Np.mean_value sq)).
  split.
  - apply (bootstrap_interval_value historical_data team_data features
             prediction_year n_bootstrap level g g' collected Hrun Hne); lra.
  - cbn [prediction standard_error]. split; [reflexivity|]. split.
    + destruct collected; [contradiction|reflexivity].
    + unfold sq in *. split; [apply sqrt_sqrt; lra|]. split; [apply sqrt_pos|].
      replace 19 with (sqrt (19 * 19)) by (apply sqrt_square; lra).
      apply sqrt_le_1_alt. lra.
Qed.

Lemma interpolate_first (s : list R) : Np.interpolate s 0 = nth 0 s 0.
Proof.
  unfold Np.interpolate.
  replace (Int_part 0) with 0%Z by (apply Int_part_spec; simpl; lra).
  simpl. lra.
Qed.

Lemma interpolate_last (s : list R) :
  Np.interpolate s (INR (length s - 1)) = nth (length s - 1) s 0.
Proof.
  unfold Np.interpolate. rewrite Int_part_INR, Nat2Z.id. lra.
Qed.

(** X14. At the confidence level 1 the bounds are the smallest and the
    largest collected prediction: both are collected values and every
    collected prediction lies between them. *)
Theorem bootstrap_full_level_covers_all
  (historical_data team_data : list Row) (features : list column)
  (prediction_year : Z) (n_bootstrap : nat) (g g' : G) (collected : list R) :
  bootstrap_predictions historical_data team_data features prediction_year
    n_bootstrap g = (Ok collected, g') ->
  collected <> [] ->
  exists ci lo hi,
    bootstrap_confidence_interval_recent_form historical_data team_data features
      prediction_year n_bootstrap 1 g = (Ok ci, g')
    /\ lower_bound ci = Finite lo
    /\ upper_bound ci = Finite hi
    /\ In lo collected
    /\ In hi collected
    /\ Forall (fun p => lo <= p <= hi) collected.
Proof.
  intros Hrun Hne.
  pose proof (bootstrap_interval_value historical_data team_data features
                prediction_year n_bootstrap 1 g g' collected Hrun Hne
                ltac:(lra) ltac:(lra)) as Hval.
  cbv zeta in Hval.
  set (s := Py.sort_by Np.Rleb collected) in *.
  assert (Hs : StronglySorted (fun a b => Np.Rleb a b = true) s)
    by (apply sort_by_sorted; [apply Rleb_total | apply Rleb_trans]).
  assert (Hlen : length s = length collected) by apply sort_by_length.
  assert (Hpos : (0 < length s)%nat).
  { rewrite Hlen. destruct collected; [contradiction|simpl; lia]. }
  assert (Hperm : Permutation s collected) by apply sort_by_perm.
  replace (INR (length collected - 1) * ((1 - 1) / 2 * 100 / 100)) with 0
    in Hval by lra.
  replace (INR (length collected - 1) * ((1 - (1 - 1) / 2) * 100 / 100))
    with (INR (length s - 1)) in Hval by (rewrite Hlen; lra).
  rewrite interpolate_first, interpolate_last in Hval.
  eexists. eexists. eexists. split; [exact Hval|].
  cbn [lower_bound upper_bound]. split; [reflexivity|]. split; [reflexivity|].
  split; [|split].
  - eapply Permutation_in; [exact Hperm|]. apply nth_In. lia.
  - eapply Permutation_in; [exact Hperm|]. apply nth_In. lia.
  - apply Forall_forall. intros p Hp.
    assert (Hps : In p s) by (eapply Permutation_in; [apply Permutation_sym, Hperm|exact Hp]).
    destruct (In_nth s p 0 Hps) as [i [Hi Hnth]]. rewrite <- Hnth. split.
    + apply (nth_sorted s Hs). lia.
    + apply (nth_sorted s Hs). lia.
Qed.

(** ** Cross-validation: what a fold predicts *)

Lemma team_rows_team (name : string) (df : list Row) (r : Row) :
  In r (team_rows name df) <-> In r df /\ team r = name.
Proof.
  unfold team_rows. rewrite filter_In, String.eqb_eq. reflexivity.
Qed.

Lemma team_rows_absent (name : string) (df : list Row) :
  ~ In name (map team df) -> team_rows name df = [].
Proof.
  intros Hn. unfold team_rows. apply filter_none, Forall_forall. intros r Hr.
  destruct (String.eqb (team r) name) eqn:E; [|reflexivity].
  apply String.eqb_eq in E. exfalso. apply Hn. rewrite <- E. apply in_map, Hr.
Qed.

Lemma pd_unique_In (l : list string) (x : string) :
  In x (pd_unique l) <-> In x l.
Proof.
  induction l as [|y l IH]; cbn [pd_unique In]; [reflexivity|].
  rewrite filter_In, IH. split.
  - intros [H|[H _]]; auto.
  - intros [H|H]; [left; exact H|].
    destruct (String.eqb x y) eqn:E.
    + left. symmetry. apply String.eqb_eq, E.
    + right. split; [exact H|]. reflexivity.
Qed.

Lemma pd_unique_NoDup (l : list string) : NoDup (pd_unique l).
Proof.
  induction l as [|y l IH]; cbn [pd_unique]; constructor.
  - rewrite filter_In. intros [_ H]. rewrite String.eqb_refl in H. discriminate.
  - apply NoDup_filter, IH.
Qed.

(** Taking the rows of one name out of a grouping by distinct names. *)
Lemma flat_map_take_out (T : string -> list Row) (x : string) (U : list string) :
  NoDup U -> (In x U \/ T x = []) ->
  Permutation (T x ++ flat_map T (filter (fun y => negb (String.eqb y x)) U))
              (flat_map T U).
Proof.
  induction U as [|u U IH]; intros Hnd Hx.
  - destruct Hx as [[]|Hx]. rewrite Hx. apply Permutation_refl.
  - inversion Hnd as [|? ? Hu Hnd']; subst. cbn [filter flat_map].
    destruct (String.eqb u x) eqn:E.
    + apply String.eqb_eq in E. subst u. cbn [negb].
      rewrite (filter_all (fun y => negb (String.eqb y x)) U);
        [apply Permutation_refl|].
      apply Forall_forall. intros y Hy.
      destruct (String.eqb y x) eqn:Ey; [|reflexivity].
      apply String.eqb_eq in Ey. subst y. contradiction.
    + cbn [negb flat_map].
      assert (Hx' : In x U \/ T x = []).
      { destruct Hx as [[Hx|Hx]|Hx]; auto.
        subst u. rewrite String.eqb_refl in E. discriminate. }
      eapply perm_trans; [apply Permutation_app_swap_app|].
      apply Permutation_app_head, IH; assumption.
Qed.

Lemma flat_map_ext_In {A B : Type} (f h : A -> list B) (l : list A) :
  (forall a, In a l -> f a = h a) -> flat_map f l = flat_map h l.
Proof.
  induction l as [|x l IH]; intros H; simpl; [reflexivity|].
  rewrite (H x (or_introl eq_refl)), IH; [reflexivity|].
  intros a Ha. apply H. right. exact Ha.
Qed.

(** Grouping the rows by team, in the order the teams first appear,
    rearranges the frame. *)
Lemma group_by_team_perm (df : list Row) :
  Permutation (flat_map (fun name => team_rows name df) (pd_unique (map team df))) df.
Proof.
  induction df as [|r l IH]; [apply perm_nil|].
  cbn [map pd_unique flat_map].
  assert (Hhead : team_rows (team r) (r :: l) = r :: team_rows (team r) l).
  { unfold team_rows. cbn [filter]. rewrite String.eqb_refl. reflexivity. }
  rewrite Hhead.
  rewrite (flat_map_ext_In (fun name => team_rows name (r :: l))
             (fun name => team_rows name l)).
  2:{ intros n Hn. apply filter_In in Hn. destruct Hn as [_ Hn].
      unfold team_rows. cbn [filter]. rewrite String.eqb_sym.
      destruct (String.eqb n (team r)); [discriminate|reflexivity]. }
  cbn [app]. apply perm_skip.
  eapply perm_trans; [|exact IH].
  apply (flat_map_take_out (fun name => team_rows name l)).
  - apply pd_unique_NoDup.
  - destruct (in_dec string_dec (team r) (map team l)) as [Hin|Hout].
    + left. apply pd_unique_In, Hin.
    + right. apply team_rows_absent, Hout.
Qed.

Lemma team_rows_filter (keep : string -> bool) (name : string) (df : list Row) :
  team_rows name (filter (fun r => keep (team r)) df)
  = if keep name then team_rows name df else [].
Proof.
  unfold team_rows. destruct (keep name) eqn:K.
  - induction df as [|r l IH]; cbn [filter]; [reflexivity|].
    destruct (keep (team r)) eqn:Kr; cbn [filter];
      destruct (String.eqb (team r) name) eqn:E; rewrite ?IH; try reflexivity.
    apply String.eqb_eq in E. rewrite E, K in Kr. discriminate.
  - induction df as [|r l IH]; cbn [filter]; [reflexivity|].
    destruct (keep (team r)) eqn:Kr; cbn [filter]; [|exact IH].
    destruct (String.eqb (team r) name) eqn:E; [|exact IH].
    apply String.eqb_eq in E. rewrite E, K in Kr. discriminate.
Qed.

Lemma filter_swap {A : Type} (p q : A -> bool) (l : list A) :
  filter p (filter q l) = filter q (filter p l).
Proof.
  induction l as [|x l IH]; cbn [filter]; [reflexivity|].
  destruct (p x) eqn:P, (q x) eqn:Q; cbn [filter]; rewrite ?P, ?Q, IH; reflexivity.
Qed.

Lemma pd_unique_filter (keep : string -> bool) (l : list string) :
  pd_unique (filter keep l) = filter keep (pd_unique l).
Proof.
  induction l as [|x l IH]; cbn [pd_unique filter]; [reflexivity|].
  destruct (keep x) eqn:K; cbn [pd_unique filter].
  - rewrite IH. f_equal. apply filter_swap.
  - rewrite IH. clear IH.
    induction (pd_unique l) as [|y u IHu]; cbn [filter]; [reflexivity|].
    destruct (String.eqb y x) eqn:E; cbn [negb filter].
    + apply String.eqb_eq in E. subst y. rewrite K. exact IHu.
    + destruct (keep y); [f_equal|]; exact IHu.
Qed.

(** The usable rows of a fold are its test rows of the teams that have a
    training row, each one once. *)
Lemma usable_rows_perm (train_data test_data : list Row) :
  Permutation (usable_rows train_data test_data)
              (filter (fun r => in_frame (team r) train_data) test_data).
Proof.
  set (keep := fun name => in_frame name train_data).
  set (kept := filter (fun r => keep (team r)) test_data).
  assert (Heq : usable_rows train_data test_data
                = flat_map (fun name => team_rows name kept)
                           (pd_unique (map team kept))).
  { unfold usable_rows, kept.
    assert (Hmap : map team (filter (fun r => keep (team r)) test_data)
                   = filter keep (map team test_data)).
    { induction test_data as [|r l IH]; simpl; [reflexivity|].
      destruct (keep (team r)); simpl; rewrite IH; reflexivity. }
    rewrite Hmap, pd_unique_filter.
    induction (pd_unique (map team test_data)) as [|n u IHu]; simpl; [reflexivity|].
    fold (keep n). destruct (keep n) eqn:K; simpl.
    - rewrite team_rows_filter, K, IHu. reflexivity.
    - exact IHu. }
  rewrite Heq. apply group_by_team_perm.
Qed.

Lemma cv_rows_loop
  (rf_cv : Forest) (train_data : list Row) (features : list column)
  (target : column) (name : string) :
  forall (rows : list Row) (fold_predictions fold_actuals : list R) (g : G),
  exists new g',
    for_each (cv_predict_row rf_cv train_data features target name) rows
      (fold_predictions, fold_actuals) g
    = (Ok (fold_predictions ++ new,
           fold_actuals
           ++ map (col target) (if in_frame name train_data then rows else [])),
       g')
    /\ length new = length (if in_frame name train_data then rows else [])
    /\ Forall (fun p => 1 <= p <= 20) new
    /\ (new = [] -> g' = g).
Proof.
  destruct (in_frame name train_data) eqn:Hin.
  - assert (Hne : team_rows name train_data <> []).
    { intros H. apply in_frame_rows in H. rewrite H in Hin. discriminate. }
    induction rows as [|row rows IH]; intros fp fa g.
    + exists [], g. cbn [for_each map]. unfold ret. rewrite !app_nil_r.
      repeat split; constructor.
    + cbn [for_each]. unfold bind at 1.
      rewrite (cv_predict_row_run rf_cv train_data features target name row fp fa g Hne).
      match goal with
      | |- context [for_each _ rows (fp ++ [?v], _) ?g1] =>
          destruct (IH (fp ++ [v]) (fa ++ [col target row]) g1)
            as [new [g' [Hrun [Hlen [Hb _]]]]];
          exists (v :: new), g'
      end.
      rewrite Hrun, <- !app_assoc. cbn [map app length].
      split; [reflexivity|]. split; [rewrite Hlen; reflexivity|]. split.
      * constructor; [apply team_prediction_bounds|exact Hb].
      * discriminate.
  - assert (He : team_rows name train_data = []) by (apply in_frame_rows, Hin).
    induction rows as [|row rows IH]; intros fp fa g.
    + exists [], g. cbn [for_each map]. unfold ret. rewrite !app_nil_r.
      repeat split; constructor.
    + cbn [for_each]. unfold bind at 1. unfold cv_predict_row at 1.
      rewrite He. cbn [length Nat.eqb]. unfold ret at 1. apply IH.
Qed.

Lemma cv_teams_loop
  (rf_cv : Forest) (train_data test_data : list Row) (features : list column)
  (target : column) :
  forall (names : list string) (fold_predictions fold_actuals : list R) (g : G),
  let predicted :=
    flat_map (fun name =>
                if in_frame name train_data then team_rows name test_data else [])
             names in
  exists new g',
    for_each (cv_predict_team rf_cv train_data test_data features target) names
      (fold_predictions, fold_actuals) g
    = (Ok (fold_predictions ++ new, fold_actuals ++ map (col target) predicted), g')
    /\ length new = length predicted
    /\ Forall (fun p => 1 <= p <= 20) new
    /\ (new = [] -> g' = g).
Proof.
  induction names as [|name names IH]; intros fp fa g predicted.
  - exists [], g. cbn [for_each]. unfold ret, predicted. cbn [flat_map map].
    rewrite !app_nil_r. repeat split; constructor.
  - cbn [for_each]. unfold bind at 1. unfold cv_predict_team at 1.
    destruct (cv_rows_loop rf_cv train_data features target name
                (team_rows name test_data) fp fa g)
      as [new1 [g1 [Hrun1 [Hlen1 [Hb1 Hg1]]]]].
    rewrite Hrun1.
    destruct (IH (fp ++ new1)
                (fa ++ map (col target)
                         (if in_frame name train_data
                          then team_rows name test_data else [])) g1)
      as [new2 [g2 [Hrun2 [Hlen2 [Hb2 Hg2]]]]].
    cbv zeta in Hrun2, Hlen2.
    exists (new1 ++ new2), g2. rewrite Hrun2.
    unfold predicted. cbn [flat_map]. rewrite map_app, <- !app_assoc.
    split; [reflexivity|]. split; [rewrite !length_app, Hlen1, Hlen2; reflexivity|].
    split; [apply Forall_app; split; assumption|].
    intros Hnil. apply app_eq_nil in Hnil. destruct Hnil as [H1 H2].
    rewrite (Hg2 H2). apply Hg1, H1.
Qed.

Lemma cv_fold_run
  (data : list Row) (features : list column) (target : column)
  (period : Period) (cv_scores : list R) (g : G) :
  let usable := usable_rows (cv_train_data data period) (cv_test_data data period) in
  exists predicted g',
    cv_fold data features target period cv_scores g
    = (Ok (match usable with
           | [] => cv_scores
           | _ :: _ =>
               cv_scores ++ [r2_score (map (col target) usable) predicted]
           end), g')
    /\ length predicted = length usable
    /\ Forall (fun p => 1 <= p <= 20) predicted
    /\ (usable = [] -> g' = g).
Proof.
  intros usable. unfold cv_fold.
  set (train_data := cv_train_data data period) in *.
  set (test_data := cv_test_data data period) in *.
  destruct ((length train_data =? 0)%nat || (length test_data =? 0)%nat) eqn:Hskip.
  - assert (Hu : usable = []).
    { unfold usable, usable_rows. apply orb_prop in Hskip.
      destruct Hskip as [Ht|Ht]; apply Nat.eqb_eq, length_zero_iff_nil in Ht.
      - rewrite Ht. induction (pd_unique (map team test_data)) as [|n u IH];
          [reflexivity|exact IH].
      - rewrite Ht. reflexivity. }
    exists [], g. rewrite Hu. unfold ret.
    split; [reflexivity|]. split; [reflexivity|]. split; [constructor|reflexivity].
  - destruct (cv_teams_loop
                (forest_fit (design features train_data)
                            (map (col target) train_data))
                train_data test_data features target
                (pd_unique (map team test_data)) [] [] g)
      as [new [g' [Hrun [Hlen [Hb Hg]]]]].
    cbv zeta in Hrun, Hlen. fold (usable_rows train_data test_data) in Hrun, Hlen.
    fold usable in Hrun, Hlen.
    exists new, g'. unfold bind. rewrite Hrun. cbn [app].
    destruct usable as [|r u] eqn:Hu.
    + destruct new; [|discriminate]. cbn [length Nat.ltb Nat.leb]. unfold ret.
      split; [reflexivity|]. split; [reflexivity|]. split; [constructor|].
      intros _. apply Hg. reflexivity.
    + destruct new as [|p new]; [discriminate|].
      cbn [length Nat.ltb Nat.leb]. unfold ret.
      split; [reflexivity|]. split; [exact Hlen|]. split; [exact Hb|discriminate].
Qed.




(** X17. When, in each of the three folds, no team of the test window has
    a row in the training window (for instance when no season of the
    dataset lies in 2014..2023), no fold is scored: the result is exactly
    0.0 and the generator is not used. *)
Theorem cross_validate_zero_without_usable_rows
  (data : list Row) (features : list column) (target : column)
  (prediction_year : Z) (g : G) :
  features <> [] ->
  (forall period r,
     In period cv_periods -> In r (cv_test_data data period) ->
     team_rows (team r) (cv_train_data data period) = []) ->
  cross_validate_time_series data features target prediction_year g = (Ok 0, g).
Proof.
  intros _ Hnone.
  assert (Hu : forall period, In period cv_periods ->
            usable_rows (cv_train_data data period) (cv_test_data data period) = []).
  { intros period Hp.
    apply Permutation_nil. apply Permutation_sym.
    eapply perm_trans; [apply usable_rows_perm|].
    rewrite filter_none; [apply perm_nil|].
    apply Forall_forall. intros r Hr. apply in_frame_rows. apply (Hnone period r Hp Hr). }
  assert (Hloop : forall periods, incl periods cv_periods ->
            for_each (cv_fold data features target) periods [] g = (Ok [], g)).
  { induction periods as [|p periods IH]; intros Hincl; [reflexivity|].
    cbn [for_each]. unfold bind at 1.
    destruct (cv_fold_run data features target p [] g)
      as [predicted [g1 [Hrun [_ [_ Hg]]]]].
    cbv zeta in Hrun, Hg.
    rewrite (Hu p (Hincl p (or_introl eq_refl))) in Hrun, Hg.
    rewrite Hrun, (Hg eq_refl). apply IH.
    intros q Hq. apply Hincl. right. exact Hq. }
  unfold cross_validate_time_series, bind.
  rewrite (Hloop cv_periods (incl_refl _)). reflexivity.
Qed.

(** ** The prediction run: who is ranked, the intervals, the errors *)

Lemma predict_team_skip
  (historical_data : list Row) (rf_model : Forest) (prediction_year : Z)
  (level : R) (name : string) (acc : list (string * R) * list TeamInterval) (g : G) :
  in_frame name historical_data = false ->
  predict_team historical_data rf_model prediction_year level name acc g
  = (Ok acc, g).
Proof.
  intros Hout. apply in_frame_rows in Hout.
  unfold predict_team. destruct acc as [P C]. rewrite Hout. reflexivity.
Qed.

Lemma predict_team_step
  (historical_data : list Row) (rf_model : Forest) (prediction_year : Z)
  (level : R) (name : string) (P : list (string * R)) (C : list TeamInterval)
  (g : G) :
  in_frame name historical_data = true ->
  let team_data := team_rows name historical_data in
  predict_team historical_data rf_model prediction_year level name (P, C) g
  = match bootstrap_confidence_interval_recent_form historical_data team_data
            features prediction_year 100 level g with
    | (Ok ci, g1) =>
        (Ok (P ++ [(name, team_prediction rf_model team_data features
                            prediction_year g1)],
             C ++ [team_interval name ci]),
         snd (calculate_recent_form_score team_data prediction_year 3 g1))
    | (Err e, g1) => (Err e, g1)
    end.
Proof.
  intros Hin team_data. unfold predict_team. fold team_data.
  assert (Hne : team_data <> []).
  { intros H. apply in_frame_rows in H. rewrite H in Hin. discriminate. }
  destruct team_data as [|r l] eqn:E; [contradiction|].
  change (length (r :: l) =? 0)%nat with false. cbv iota.
  unfold bind at 1.
  destruct (bootstrap_confidence_interval_recent_form historical_data (r :: l)
              features prediction_year 100 level g) as [[ci|e] g1]; [|reflexivity].
  pose proof (predict_from_frame rf_model (r :: l) features prediction_year g1 Hne)
    as Hp.
  unfold bind in *.
  destruct (weighted_average (r :: l) features prediction_year g1)
    as [[s|e1] g2]; [|discriminate].
  destruct (adjusted_prediction rf_model features s g2) as [[v|e2] g3];
    inversion Hp; subst; reflexivity.
Qed.

(** The rows that an accepted bootstrap gives. *)
Lemma bootstrap_interval_shape
  (historical_data team_data : list Row) (features : list column)
  (prediction_year : Z) (n_bootstrap : nat) (level : R) (g g1 : G)
  (ci : ConfidenceInterval) :
  bootstrap_confidence_interval_recent_form historical_data team_data features
    prediction_year n_bootstrap level g = (Ok ci, g1) ->
  -1 <= level <= 1
  /\ ((exists point lo hi se,
         ci = {| prediction := Finite point; lower_bound := Finite lo;
                 upper_bound := Finite hi; standard_error := Finite se;
                 confidence_level := level |}
         /\ 1 <= lo <= 20 /\ 1 <= hi <= 20 /\ 1 <= point <= 20
         /\ (0 <= level -> lo <= hi))
      \/ (exists bound,
            percentile_empty = Some bound
            /\ ci = {| prediction := NaN; lower_bound := bound;
                       upper_bound := bound; standard_error := NaN;
                       confidence_level := level |})).
Proof.
  intros Hrun.
  unfold bootstrap_confidence_interval_recent_form, bind, lift_result in Hrun.
  destruct (bootstrap_predictions historical_data team_data features
              prediction_year n_bootstrap g) as [[collected|e] g0] eqn:Hloop;
    [|discriminate].
  inversion Hrun as [[Hstat Hg]]. clear Hrun.
  assert (Hlevel : -1 <= level <= 1).
  { unfold interval_statistics, Np.percentile in Hstat.
    destruct (Rlt_dec ((1 - level) / 2 * 100) 0); [discriminate|].
    destruct (Rlt_dec 100 ((1 - level) / 2 * 100)); [discriminate|]. lra. }
  split; [exact Hlevel|].
  destruct collected as [|p0 rest] eqn:Ec.
  - right. unfold interval_statistics, Np.percentile in Hstat.
    destruct (Rlt_dec ((1 - level) / 2 * 100) 0); [lra|].
    destruct (Rlt_dec 100 ((1 - level) / 2 * 100)); [lra|].
    destruct (Rlt_dec ((1 - (1 - level) / 2) * 100) 0); [lra|].
    destruct (Rlt_dec 100 ((1 - (1 - level) / 2) * 100)); [lra|].
    destruct percentile_empty as [bound|]; [|discriminate].
    exists bound. split; [reflexivity|]. inversion Hstat. reflexivity.
  - left. rewrite <- Ec in *.
    assert (Hne : collected <> []) by (rewrite Ec; discriminate).
    pose proof (collected_in_range _ _ _ _ _ _ _ _ Hloop) as Hrange.
    pose proof (bootstrap_interval_value historical_data team_data features
                  prediction_year n_bootstrap level g g0 collected Hloop Hne
                  ltac:(lra) ltac:(lra)) as Hval.
    cbv zeta in Hval.
    unfold bootstrap_confidence_interval_recent_form, bind, lift_result in Hval.
    rewrite Hloop in Hval. inversion Hval as [Hci]. rewrite Hstat in Hci.
    inversion Hci as [Hci']. clear Hval Hci.
    destruct (np_std_nonempty collected Hne) as [se Hse].
    set (s := Py.sort_by Np.Rleb collected).
    assert (Hs : StronglySorted (fun a b => Np.Rleb a b = true) s)
      by (apply sort_by_sorted; [apply Rleb_total | apply Rleb_trans]).
    assert (Hlen : length s = length collected) by apply sort_by_length.
    assert (Hpos : (0 < length s)%nat).
    { rewrite Hlen. destruct collected; [contradiction|simpl; lia]. }
    assert (Hbs : Forall (fun p => 1 <= p <= 20) s).
    { eapply Permutation_Forall; [|exact Hrange].
      apply Permutation_sym, sort_by_perm. }
    assert (Hh : forall q, 0 <= q <= 100 ->
              0 <= INR (length collected - 1) * (q / 100) <= INR (length s - 1)).
    { intros q Hq. rewrite Hlen. apply virtual_index_range, Hq. }
    eexists. eexists. eexists. exists se. split.
    + rewrite Hse. reflexivity.
    + split; [apply (interpolate_bounds s Hs Hpos); [apply Hh; lra|exact Hbs]|].
      split; [apply (interpolate_bounds s Hs Hpos); [apply Hh; lra|exact Hbs]|].
      split; [apply mean_value_bounds; assumption|].
      intros H0. apply (interpolate_mono s Hs Hpos).
      * apply Hh. lra.
      * apply Rmult_le_compat_l; [apply pos_INR|lra].
      * apply Hh. lra.
Qed.

(** What a completed team loop has appended. *)
Lemma compare_loop_shape
  (historical_data : list Row) (rf_model : Forest) (prediction_year : Z)
  (level : R) :
  forall (teams : list string) (P : list (string * R)) (C : list TeamInterval)
         (g g' : G) (P' : list (string * R)) (C' : list TeamInterval),
  for_each (predict_team historical_data rf_model prediction_year level) teams
    (P, C) g = (Ok (P', C'), g') ->
  exists newP newC,
    P' = P ++ newP /\ C' = C ++ newC
    /\ map fst newP = filter (fun name => in_frame name historical_data) teams
    /\ map ci_team newC = filter (fun name => in_frame name historical_data) teams
    /\ Forall (fun p => 1 <= snd p <= 20) newP
    /\ Forall (fun ti =>
                 exists team_data ci g0 g1,
                   bootstrap_confidence_interval_recent_form historical_data
                     team_data features prediction_year 100 level g0 = (Ok ci, g1)
                   /\ ti = team_interval (ci_team ti) ci) newC.
Proof.
  induction teams as [|name teams IH]; intros P C g g' P' C' Hrun.
  - cbn [for_each] in Hrun. unfold ret in Hrun. inversion Hrun; subst.
    exists [], []. rewrite !app_nil_r. repeat split; constructor.
  - cbn [for_each filter] in *. unfold bind at 1 in Hrun.
    destruct (in_frame name historical_data) eqn:Hin.
    + rewrite (predict_team_step historical_data rf_model prediction_year level
                 name P C g Hin) in Hrun.
      cbv zeta in Hrun.
      destruct (bootstrap_confidence_interval_recent_form historical_data
                  (team_rows name historical_data) features prediction_year 100
                  level g) as [[ci|e] g1] eqn:Hci; [|discriminate].
      destruct (IH _ _ _ _ _ _ Hrun)
        as [newP [newC [HP [HC [Hn [Hc [Hb Hi]]]]]]].
      eexists (_ :: newP), (_ :: newC).
      rewrite HP, HC, <- !app_assoc. cbn [app map fst ci_team team_interval].
      split; [reflexivity|]. split; [reflexivity|].
      split; [f_equal; exact Hn|]. split; [f_equal; exact Hc|]. split.
      * constructor; [apply team_prediction_bounds|exact Hb].
      * constructor; [|exact Hi].
        exists (team_rows name historical_data), ci, g, g1.
        split; [exact Hci|reflexivity].
    + rewrite predict_team_skip in Hrun by exact Hin.
      apply (IH _ _ _ _ _ _ Hrun).
Qed.

Lemma assign_ranks_names (l : list (string * R)) :
  Permutation (map fst (assign_ranks l)) (map fst l).
Proof.
  rewrite assign_ranks_combine.
  assert (H : forall (names : list string) (ranks : list nat),
            length names = length ranks -> map fst (combine names ranks) = names).
  { induction names as [|n names IHn]; intros [|r ranks] Hl; simpl in *;
      try reflexivity; try discriminate.
    f_equal. apply IHn. lia. }
  rewrite H.
  - apply Permutation_map, sort_by_perm.
  - rewrite length_map, sort_by_length, length_seq. reflexivity.
Qed.

Lemma assign_ranks_ranks (l : list (string * R)) :
  map snd (assign_ranks l) = seq 1 (length l).
Proof.
  rewrite assign_ranks_combine.
  assert (H : forall (names : list string) (ranks : list nat),
            length names = length ranks -> map snd (combine names ranks) = ranks).
  { induction names as [|n names IHn]; intros [|r ranks] Hl; simpl in *;
      try reflexivity; try discriminate.
    f_equal. apply IHn. lia. }
  apply H. rewrite length_map, sort_by_length, length_seq. reflexivity.
Qed.

Lemma compare_run_shape
  (data : list Row) (teams : list string) (actual_standings : list (string * R))
  (prediction_year : Z) (level : R) (g g' : G)
  (ranked : list (string * nat)) (intervals : list TeamInterval) :
  compare_predictions_with_confidence data teams actual_standings prediction_year
    level g = (Ok (ranked, intervals), g') ->
  let historical_data :=
    filter (fun r => (season_end_year r <? prediction_year)%Z) data in
  exists predictions,
    ranked = assign_ranks predictions
    /\ map fst predictions
       = filter (fun name => in_frame name historical_data) teams
    /\ map ci_team intervals
       = filter (fun name => in_frame name historical_data) teams
    /\ Forall (fun ti =>
                 exists team_data ci g0 g1,
                   bootstrap_confidence_interval_recent_form historical_data
                     team_data features prediction_year 100 level g0 = (Ok ci, g1)
                   /\ ti = team_interval (ci_team ti) ci) intervals.
Proof.
  intros Hrun historical_data.
  unfold compare_predictions_with_confidence in Hrun. fold historical_data in Hrun.
  destruct (length historical_data =? 0)%nat; [discriminate|].
  unfold bind in Hrun.
  destruct (for_each _ teams ([], []) g) as [[[P C]|e] g1] eqn:Hloop;
    [|discriminate].
  destruct (compare_loop_shape _ _ _ _ _ _ _ _ _ _ _ Hloop)
    as [newP [newC [HP [HC [Hn [Hc [_ Hi]]]]]]].
  cbn [app] in HP, HC. subst P C.
  unfold ret in Hrun. inversion Hrun; subst.
  exists newP. repeat split; assumption.
Qed.

(** X18. When the team loop completes, the ranking holds exactly the
    listed teams that have a row before the prediction year, each as often
    as it is listed: the teams without history are left out, the interval
    rows are in the order of the list, and the ranks are 1..K for the K
    teams that remain. *)
Theorem compare_predicts_teams_with_history
  (data : list Row) (teams : list string) (actual_standings : list (string * R))
  (prediction_year : Z) (level : R) (g g' : G)
  (ranked : list (string * nat)) (intervals : list TeamInterval) :
  compare_predictions_with_confidence data teams actual_standings prediction_year
    level g = (Ok (ranked, intervals), g') ->
  let historical_data :=
    filter (fun r => (season_end_year r <? prediction_year)%Z) data in
  let predicted := filter (fun name => in_frame name historical_data) teams in
  map ci_team intervals = predicted
  /\ Permutation (map fst ranked) predicted
  /\ map snd ranked = seq 1 (length predicted)
  /\ forall name,
       In name (map fst ranked)
       <-> In name teams /\ team_rows name historical_data <> [].
Proof.
  intros Hrun historical_data predicted.
  destruct (compare_run_shape _ _ _ _ _ _ _ _ _ Hrun)
    as [predictions [Hr [Hn [Hc _]]]].
  fold historical_data in Hn, Hc. fold predicted in Hn, Hc.
  assert (Hperm : Permutation (map fst ranked) predicted).
  { rewrite Hr, <- Hn. apply assign_ranks_names. }
  split; [exact Hc|]. split; [exact Hperm|]. split.
  - rewrite Hr, assign_ranks_ranks, <- Hn, length_map. reflexivity.
  - intros name. split.
    + intros Hin. apply (Permutation_in _ Hperm) in Hin.
      unfold predicted in Hin. apply filter_In in Hin. destruct Hin as [Ht Hf].
      split; [exact Ht|]. intros He. apply in_frame_rows in He.
      rewrite He in Hf. discriminate.
    + intros [Ht Hne]. apply (Permutation_in _ (Permutation_sym Hperm)).
      unfold predicted. apply filter_In. split; [exact Ht|].
      destruct (in_frame name historical_data) eqn:E; [reflexivity|].
      apply in_frame_rows in E. contradiction.
Qed.

(** X19. When the team loop completes at a confidence level in [0, 1],
    every interval row is in range: its point estimate and bounds are
    finite values in [1, 20] with [lower_bound <= upper_bound], and its
    width is their difference, between 0 and 19; the one exception is the
    row of a team that no resample held, whose point estimate is [nan]. *)
Theorem compare_interval_widths
  (data : list Row) (teams : list string) (actual_standings : list (string * R))
  (prediction_year : Z) (level : R) (g g' : G)
  (ranked : list (string * nat)) (intervals : list TeamInterval) :
  compare_predictions_with_confidence data teams actual_standings prediction_year
    level g = (Ok (ranked, intervals), g') ->
  0 <= level <= 1 ->
  Forall interval_in_range intervals
  /\ Forall (fun ti =>
               forall width, interval_width ti = Finite width -> 0 <= width <= 19)
            intervals.
Proof.
  intros Hrun Hlevel.
  destruct (compare_run_shape _ _ _ _ _ _ _ _ _ Hrun)
    as [predictions [_ [_ [_ Hi]]]].
  assert (Hall : Forall (fun ti =>
                   interval_in_range ti
                   /\ forall width, interval_width ti = Finite width ->
                                    0 <= width <= 19) intervals).
  { eapply Forall_impl; [|exact Hi].
    intros ti [team_data [ci [g0 [g1 [Hci Hti]]]]].
    destruct (bootstrap_interval_shape _ _ _ _ _ _ _ _ _ Hci)
      as [_ [[point [lo [hi [se [Heq [Hlo [Hhi [Hpt Hord]]]]]]]]|[bound [_ Heq]]]].
    - assert (Hle : lo <= hi) by (apply Hord; lra).
      rewrite Hti, Heq. cbn. split.
      + left. exists point, lo, hi. repeat split; try reflexivity; lra.
      + intros width Hw. inversion Hw. lra.
    - rewrite Hti, Heq. cbn. split.
      + right. repeat split.
      + destruct bound as [x|]; cbn; intros width Hw; inversion Hw. lra. }
  split.
  - eapply Forall_impl; [|exact Hall]. intros ti [H _]. exact H.
  - eapply Forall_impl; [|exact Hall]. intros ti [_ H]. exact H.
Qed.

Lemma team_rows_first (name : string) (df : list Row) (first : Row) (rest : list Row) :
  team_rows name df = first :: rest -> team first = name.
Proof.
  intros H. apply (team_rows_team name df first). rewrite H. left. reflexivity.
Qed.

(** The bootstrap of a team is accepted when the level is in range and
    either some resample holds the team or [np.percentile] takes an empty
    array. *)
Lemma bootstrap_accepted
  (historical_data : list Row) (name : string) (prediction_year : Z)
  (n_bootstrap : nat) (level : R) (g : G) :
  team_rows name historical_data <> [] ->
  -1 <= level <= 1 ->
  (percentile_empty <> None \/ hits historical_data name n_bootstrap <> []) ->
  exists ci g1,
    bootstrap_confidence_interval_recent_form historical_data
      (team_rows name historical_data) features prediction_year n_bootstrap level g
    = (Ok ci, g1).
Proof.
  intros Hne Hlevel Hsome.
  destruct (team_rows name historical_data) as [|first rest] eqn:E; [contradiction|].
  pose proof (team_rows_first name historical_data first rest E) as Hteam.
  destruct (bootstrap_loop_count historical_data first rest features
              prediction_year (seq 0 n_bootstrap) [] g)
    as [collected [g1 [Hloop [Hlen _]]]].
  cbn [app] in Hloop. rewrite Hteam in Hlen. fold (hits historical_data name n_bootstrap) in Hlen.
  destruct collected as [|p0 l0] eqn:Ec.
  - assert (Hpe : percentile_empty <> None).
    { destruct Hsome as [H|H]; [exact H|].
      destruct (hits historical_data name n_bootstrap); [contradiction|discriminate]. }
    unfold bootstrap_confidence_interval_recent_form, bind, lift_result.
    unfold bootstrap_predictions. rewrite Hloop.
    unfold interval_statistics, Np.percentile.
    destruct (Rlt_dec ((1 - level) / 2 * 100) 0); [lra|].
    destruct (Rlt_dec 100 ((1 - level) / 2 * 100)); [lra|].
    destruct (Rlt_dec ((1 - (1 - level) / 2) * 100) 0); [lra|].
    destruct (Rlt_dec 100 ((1 - (1 - level) / 2) * 100)); [lra|].
    destruct percentile_empty; [|contradiction].
    eexists. eexists. reflexivity.
  - eexists. eexists.
    apply (bootstrap_interval_value historical_data (first :: rest) features
             prediction_year n_bootstrap level g g1 (p0 :: l0) Hloop);
      [discriminate|lra|lra].
Qed.

(** The team loop runs to its end when the level is in range and every
    listed team with history is held by one of its 100 resamples (or
    [np.percentile] takes an empty array). *)
Lemma compare_loop_total
  (historical_data : list Row) (rf_model : Forest) (prediction_year : Z)
  (level : R) (teams : list string) :
  -1 <= level <= 1 ->
  (percentile_empty <> None
   \/ forall name, In name teams -> team_rows name historical_data <> [] ->
        hits historical_data name 100 <> []) ->
  forall names, incl names teams ->
  forall acc g0, exists acc' g1,
    for_each (predict_team historical_data rf_model prediction_year level)
      names acc g0 = (Ok acc', g1).
Proof.
  intros Hlevel Hsome.
  induction names as [|name names IH]; intros Hincl acc g0.
  - exists acc, g0. reflexivity.
  - cbn [for_each]. unfold bind at 1. destruct acc as [P C].
    assert (Hrest : incl names teams)
      by (intros x Hx; apply Hincl; right; exact Hx).
    destruct (in_frame name historical_data) eqn:Hin.
    + rewrite (predict_team_step historical_data rf_model prediction_year
                 level name P C g0 Hin). cbv zeta.
      assert (Hne : team_rows name historical_data <> []).
      { intros H. apply in_frame_rows in H. rewrite H in Hin. discriminate. }
      destruct (bootstrap_accepted historical_data name prediction_year 100
                  level g0 Hne Hlevel) as [ci [g1 Hci]].
      { destruct Hsome as [H|H]; [left; exact H|right].
        apply H; [apply Hincl; left; reflexivity|exact Hne]. }
      rewrite Hci. apply (IH Hrest).
    + rewrite predict_team_skip by exact Hin. apply (IH Hrest).
Qed.



(** ** The comparison table *)

Lemma inner_merge_In {A B C : Type} (left_on : A -> string) (right_on : B -> string)
  (join : A -> B -> C) (left : list A) (right : list B) (c : C) :
  In c (inner_merge left_on right_on join left right)
  <-> exists a b, In a left /\ In b right /\ right_on b = left_on a /\ c = join a b.
Proof.
  unfold inner_merge. rewrite in_flat_map. split.
  - intros [a [Ha Hc]]. apply in_map_iff in Hc. destruct Hc as [b [Hj Hb]].
    apply filter_In in Hb. destruct Hb as [Hb Hk]. apply String.eqb_eq in Hk.
    exists a, b. auto.
  - intros [a [b [Ha [Hb [Hk Hj]]]]]. exists a. split; [exact Ha|].
    apply in_map_iff. exists b. split; [symmetry; exact Hj|].
    apply filter_In. split; [exact Hb|]. apply String.eqb_eq, Hk.
Qed.

Lemma comparison_table_In
  (predictions : list (string * nat)) (confidence_intervals : list TeamInterval)
  (actual_standings : list (string * R)) (rows : list ComparisonRow) :
  comparison_table predictions confidence_intervals actual_standings = Ok rows ->
  forall row,
    In row rows
    <-> In (cmp_team row, predicted_position row) predictions
        /\ In (cmp_team row, actual_position row) actual_standings
        /\ In (cmp_interval row) confidence_intervals
        /\ ci_team (cmp_interval row) = cmp_team row
        /\ position_difference row = INR (predicted_position row) - actual_position row.
Proof.
  intros Htable row. unfold comparison_table in Htable.
  destruct predictions as [|p0 ps] eqn:Ep; [discriminate|].
  destruct confidence_intervals as [|c0 cs] eqn:Ec; [discriminate|].
  rewrite <- Ep, <- Ec in *. inversion Htable as [Hrows]. clear Htable Hrows.
  rewrite inner_merge_In. split.
  - intros [[[[name predicted] actual] difference] [ci [Hl [Hci [Hk Hrow]]]]].
    cbn [fst] in Hk. subst row. cbn.
    apply in_map_iff in Hl. destruct Hl as [[[n p] a] [Heq Hm]].
    inversion Heq; subst. clear Heq.
    apply inner_merge_In in Hm.
    destruct Hm as [[n1 p1] [[n2 a2] [Hp [Ha [Hk' Hj]]]]].
    cbn [fst snd] in *. inversion Hj; subst. auto.
  - intros [Hp [Ha [Hci [Hk Hd]]]]. destruct row as [name predicted actual difference ci].
    cbn in *.
    exists (name, predicted, actual, INR predicted - actual), ci.
    split; [|split; [exact Hci|split; [exact Hk|subst difference; reflexivity]]].
    apply in_map_iff. exists (name, predicted, actual). split; [reflexivity|].
    apply inner_merge_In. exists (name, predicted), (name, actual).
    repeat split; assumption.
Qed.

(** X22. The comparison table holds exactly the rows that join a ranked
    team with an entry of the actual standings and an interval row of the
    same team: a team without an actual entry has no row, and every row's
    position difference is its predicted rank minus its actual position.
    With no prediction (or no interval row) the merge raises [KeyError]. *)
Theorem comparison_table_rows
  (predictions : list (string * nat)) (confidence_intervals : list TeamInterval)
  (actual_standings : list (string * R)) :
  match predictions, confidence_intervals with
  | _ :: _, _ :: _ =>
      exists rows,
        comparison_table predictions confidence_intervals actual_standings = Ok rows
        /\ forall row,
             In row rows
             <-> In (cmp_team row, predicted_position row) predictions
                 /\ In (cmp_team row, actual_position row) actual_standings
                 /\ In (cmp_interval row) confidence_intervals
                 /\ ci_team (cmp_interval row) = cmp_team row
                 /\ position_difference row
                    = INR (predicted_position row) - actual_position row
  | _, _ =>
      comparison_table predictions confidence_intervals actual_standings
      = Err KeyError
  end.
Proof.
  destruct predictions as [|p0 ps] eqn:Ep; [reflexivity|].
  destruct confidence_intervals as [|c0 cs] eqn:Ec; [reflexivity|].
  rewrite <- Ep, <- Ec.
  assert (Hok : exists rows,
            comparison_table predictions confidence_intervals actual_standings
            = Ok rows).
  { rewrite Ep, Ec. eexists. reflexivity. }
  destruct Hok as [rows Hrows]. exists rows. split; [exact Hrows|].
  apply comparison_table_In, Hrows.
Qed.

(** X23. When the dataset has rows before the prediction year but none of
    the listed teams has one, every team is skipped and the run ends in the
    merge with [KeyError]: the frame of an empty prediction list has no
    team column.  The generator is not used. *)
Theorem compare_no_history_key_error
  (data : list Row) (teams : list string) (actual_standings : list (string * R))
  (prediction_year : Z) (level : R) (g : G) :
  let historical_data :=
    filter (fun r => (season_end_year r <? prediction_year)%Z) data in
  historical_data <> [] ->
  (forall name, In name teams -> team_rows name historical_data = []) ->
  compare_predictions_with_confidence data teams actual_standings prediction_year
    level g = (Ok ([], []), g)
  /\ compare_predictions_table data teams actual_standings prediction_year level g
     = (Err KeyError, g).
Proof.
  intros historical_data Hhist Hnone.
  assert (Hcore : compare_predictions_with_confidence data teams actual_standings
                    prediction_year level g = (Ok ([], []), g)).
  { unfold compare_predictions_with_confidence. fold historical_data.
    destruct historical_data as [|r0 l0] eqn:Eh; [contradiction|].
    change (length (r0 :: l0) =? 0)%nat with false. cbv iota. rewrite <- Eh in *.
    set (rf_model := forest_fit (design features historical_data)
                                (map (col target) historical_data)).
    assert (Hloop : forall names, incl names teams ->
              forall acc g0,
                for_each (predict_team historical_data rf_model prediction_year
                            level) names acc g0 = (Ok acc, g0)).
    { induction names as [|x names IH]; intros Hincl acc g0; [reflexivity|].
      cbn [for_each]. unfold bind at 1.
      rewrite predict_team_skip.
      - apply IH. intros y Hy. apply Hincl. right. exact Hy.
      - apply in_frame_rows, Hnone, Hincl. left. reflexivity. }
    unfold bind. rewrite (Hloop teams (incl_refl _)). reflexivity. }
  split; [exact Hcore|].
  unfold compare_predictions_table, bind. rewrite Hcore. reflexivity.
Qed.

(** X24. In the comparison table that the two merges build, every row
    belongs to a listed team that has history and an entry in the actual
    standings; its predicted position is a rank between 1 and the number K
    of predicted teams, its difference is that rank minus the actual
    position, and its interval row is the one of the same team. *)
Theorem compare_table_rows_in_range
  (data : list Row) (teams : list string) (actual_standings : list (string * R))
  (prediction_year : Z) (level : R) (g g' : G) (rows : list ComparisonRow) :
  compare_predictions_table data teams actual_standings prediction_year level g
  = (Ok rows, g') ->
  let historical_data :=
    filter (fun r => (season_end_year r <? prediction_year)%Z) data in
  let K := length (filter (fun name => in_frame name historical_data) teams) in
  Forall (fun row =>
            In (cmp_team row) teams
            /\ team_rows (cmp_team row) historical_data <> []
            /\ In (cmp_team row, actual_position row) actual_standings
            /\ (1 <= predicted_position row <= K)%nat
            /\ position_difference row
               = INR (predicted_position row) - actual_position row
            /\ ci_team (cmp_interval row) = cmp_team row) rows.
Proof.
  intros Hrun historical_data K.
  unfold compare_predictions_table, bind, lift_result in Hrun.
  destruct (compare_predictions_with_confidence data teams actual_standings
              prediction_year level g) as [[[ranked intervals]|e] g1] eqn:Hcore;
    [|discriminate].
  cbn [fst snd] in Hrun. inversion Hrun as [[Htable Hg]]. clear Hrun.
  destruct (compare_run_shape _ _ _ _ _ _ _ _ _ Hcore)
    as [predictions [Hr [Hn _]]].
  fold historical_data in Hn.
  apply Forall_forall. intros row Hrow.
  apply (comparison_table_In _ _ _ _ Htable) in Hrow.
  destruct Hrow as [Hp [Ha [_ [Hk Hd]]]].
  assert (Hname : In (cmp_team row) (map fst ranked))
    by (apply (in_map fst) in Hp; exact Hp).
  assert (Hrank : In (predicted_position row) (map snd ranked))
    by (apply (in_map snd) in Hp; exact Hp).
  rewrite Hr in Hname, Hrank.
  apply (Permutation_in _ (assign_ranks_names predictions)) in Hname.
  rewrite Hn in Hname. apply filter_In in Hname. destruct Hname as [Ht Hf].
  rewrite assign_ranks_ranks, <- (length_map fst), Hn in Hrank.
  apply in_seq in Hrank. fold K in Hrank.
  split; [exact Ht|]. split.
  - intros He. apply in_frame_rows in He. rewrite He in Hf. discriminate.
  - split; [exact Ha|]. split; [lia|]. split; assumption.
Qed.

End Predictor.


(** * Worked cases

    The program run on the sample inputs of [Demo]: the generator is a tape
    of prepared variates, the regressor answers with the first target it
    was fitted on. *)

Local Abbreviation demo_form := (calculate_recent_form_score Demo.Tape Demo.draw Demo.lstsq_raises).
Local Abbreviation demo_iteration sample :=
  (bootstrap_iteration Demo.Tape Demo.draw Demo.lstsq_raises R Demo.first_target Demo.answer sample).
Local Abbreviation demo_predictions sample :=
  (bootstrap_predictions Demo.Tape Demo.draw Demo.lstsq_raises R Demo.first_target Demo.answer sample).
Local Abbreviation demo_interval pe sample :=
  (bootstrap_confidence_interval_recent_form Demo.Tape Demo.draw Demo.lstsq_raises pe R
     Demo.first_target Demo.answer sample).



(** The line through three points over the normalised years 0, 1, 2. *)
Lemma polyfit_three_seasons (solver : list R -> list R -> option R) (y0 y1 y2 : R) :
  Np.polyfit_slope solver [0; 1; 2] [y0; y1; y2] = Some ((y2 - y0) / 2).
Proof.
  unfold Np.polyfit_slope.
  assert (Hxx : Np.sxx [0; 1; 2] = 2).
  { unfold Np.sxx, Np.mean_value, Np.sum. simpl. field. }
  assert (Hxy : Np.sxy [0; 1; 2] [y0; y1; y2] = y2 - y0).
  { unfold Np.sxy, Np.mean_value, Np.sum. simpl. field. }
  rewrite Hxx, Hxy. destruct (Req_dec_T 2 0); [lra|reflexivity].
Qed.

(** Points rising by 10 a season at an unchanged position: the score is
    [0.6 * (10 / 5)]. *)
Example steady_climb_form (g : Demo.Tape) :
  calculate_recent_form_score Demo.Tape Demo.draw Demo.lstsq_raises
    [Demo.season "A" 2021 50 10; Demo.season "A" 2022 60 10;
     Demo.season "A" 2023 70 10] 2024 3 g
  = (6 / 5, g).
Proof.
  unfold calculate_recent_form_score.
  change (recent_seasons _ 2024 3)
    with [Demo.season "A" 2021 50 10; Demo.season "A" 2022 60 10;
          Demo.season "A" 2023 70 10].
  cbn [length Nat.ltb Nat.leb]. cbv iota.
  change (Py.sort_by year_leb _)
    with [Demo.season "A" 2021 50 10; Demo.season "A" 2022 60 10;
          Demo.season "A" 2023 70 10].
  cbn [length Nat.leb]. cbv iota.
  change (normalized_years _) with [0%Z; 1%Z; 2%Z].
  unfold fit_abscissae.
  change (Np.unique_count [0%Z; 1%Z; 2%Z] <? 2)%nat with false. cbv iota.
  cbn [map Demo.season points position].
  rewrite !polyfit_three_seasons.
  f_equal. change (Py.max (-3) (Py.min 3 ?x)) with (Py.clamp (-3) 3 x).
  rewrite py_clamp_id; lra.
Qed.

(** Two teams tied at 5: A is listed first and is ranked first. *)
Example tie_keeps_input_order :
  assign_ranks [("A"%string, 5); ("B"%string, 3); ("C"%string, 5)]
  = [("B"%string, 1%nat); ("A"%string, 2%nat); ("C"%string, 3%nat)].
Proof.
  unfold assign_ranks. cbn [Py.sort_by Py.insert_by].
  unfold position_leb, Np.Rleb. cbn [snd].
  repeat (destruct (Rle_dec _ _); try lra; cbn [Py.insert_by snd]).
  reflexivity.
Qed.

(** The lopsided resampling of [up_and_down] collects 1 for the seeds below
    98 and 20 for the others; the recent window is empty, so the generator
    is not used. *)
Lemma up_and_down_loop (k a : nat) (acc : list R) (g : Demo.Tape) :
  for_each Demo.Tape (demo_iteration Demo.lopsided Demo.up_and_down Demo.up_and_down features 2024)
    (seq a k) acc g
  = (Ok (acc ++ map (fun i => if (i <? 98)%nat then 1 else 20) (seq a k)), g).
Proof.
  revert a acc. induction k as [|k IH]; intros a acc.
  - cbn [seq map for_each]. rewrite app_nil_r. reflexivity.
  - cbn [seq map for_each]. unfold bind at 1. unfold Demo.up_and_down at 2.
    rewrite bootstrap_iteration_run.
    unfold Demo.up_and_down, Demo.lopsided.
    destruct (a <? 98)%nat.
    + cbn [team_rows filter Demo.season team String.eqb Ascii.eqb Bool.eqb].
      unfold team_prediction.
      rewrite recent_form_few_rows by (cbn; lia).
      cbn [fst snd].
      replace (Py.clamp 1 20 _) with 1.
      * rewrite IH, <- app_assoc. reflexivity.
      * symmetry. unfold Demo.answer, Demo.first_target. cbn [hd map col target position Demo.season].
        rewrite py_clamp_id; lra.
    + cbn [team_rows filter Demo.season team String.eqb Ascii.eqb Bool.eqb].
      unfold team_prediction.
      rewrite recent_form_few_rows by (cbn; lia).
      cbn [fst snd].
      replace (Py.clamp 1 20 _) with 20.
      * rewrite IH, <- app_assoc. reflexivity.
      * symmetry. unfold Demo.answer, Demo.first_target. cbn [hd map col target position Demo.season].
        rewrite py_clamp_id; lra.
Qed.

Lemma up_and_down_collected (g : Demo.Tape) :
  demo_predictions Demo.lopsided Demo.up_and_down Demo.up_and_down features 2024 100 g
  = (Ok (repeat 1 98 ++ [20; 20]), g).
Proof.
  unfold bootstrap_predictions. rewrite up_and_down_loop. reflexivity.
Qed.










(** With [n_bootstrap = 0] the statistics are taken of the empty list. *)
Lemma zero_bootstrap_statistics (pe : option npfloat) :
  fst (demo_interval pe Demo.whole_frame Demo.up_and_down Demo.up_and_down
         features 2024 0 0.95 [])
  = match pe with
    | Some bound =>
        Ok {| prediction := NaN; lower_bound := bound; upper_bound := bound;
              standard_error := NaN; confidence_level := 0.95 |}
    | None => Err IndexError
    end.
Proof.
  unfold bootstrap_confidence_interval_recent_form, bootstrap_predictions.
  cbn [seq for_each]. unfold bind, ret, lift_result. cbn [fst].
  unfold interval_statistics, Np.percentile.
  destruct (Rlt_dec ((1 - 0.95) / 2 * 100) 0); [lra|].
  destruct (Rlt_dec 100 ((1 - 0.95) / 2 * 100)); [lra|].
  destruct (Rlt_dec ((1 - (1 - 0.95) / 2) * 100) 0); [lra|].
  destruct (Rlt_dec 100 ((1 - (1 - 0.95) / 2) * 100)); [lra|].
  destruct pe; reflexivity.
Qed.

(** C2, counterexample. With [n_bootstrap = 0] the estimator returns a record
    of [nan] where [np.percentile] accepts an empty array, and passes on its
    [IndexError] where it does not; in neither case is the run refused for
    want of bootstrap samples. *)
Lemma zero_bootstrap_is_not_refused :
  fst (demo_interval (Some NaN) Demo.whole_frame Demo.up_and_down Demo.up_and_down
         features 2024 0 0.95 [])
  = Ok {| prediction := NaN; lower_bound := NaN; upper_bound := NaN;
          standard_error := NaN; confidence_level := 0.95 |}
  /\ fst (demo_interval None Demo.whole_frame Demo.up_and_down Demo.up_and_down
            features 2024 0 0.95 [])
     = Err IndexError
  /\ ~ fails_with InsufficientBootstrapSamples
         (fst (demo_interval (Some NaN) Demo.whole_frame Demo.up_and_down
                 Demo.up_and_down features 2024 0 0.95 []))
  /\ ~ fails_with InsufficientBootstrapSamples
         (fst (demo_interval None Demo.whole_frame Demo.up_and_down
                 Demo.up_and_down features 2024 0 0.95 [])).
Proof.
  rewrite !zero_bootstrap_statistics. repeat split.
  - intros [e [He _]]. discriminate.
  - intros [e [He Hk]]. inversion He; subst. discriminate.
Qed.

(** C2, witness: no pass at all. *)
Lemma bootstrap_without_predictions_witness :
  (0%nat = 0%nat
   \/ exists first rest,
        Demo.up_and_down = first :: rest
        /\ forall i, (i < 0)%nat ->
             team_rows (team first) (Demo.whole_frame Demo.up_and_down i) = [])
  /\ demo_predictions Demo.whole_frame Demo.up_and_down Demo.up_and_down features
       2024 0 [] = (Ok [], [])
  /\ ~ fails_with InsufficientBootstrapSamples
         (fst (demo_interval None Demo.whole_frame Demo.up_and_down
                 Demo.up_and_down features 2024 0 0.95 [])).
Proof.
  assert (H : 0%nat = 0%nat
              \/ exists first rest,
                   Demo.up_and_down = first :: rest
                   /\ forall i, (i < 0)%nat ->
                        team_rows (team first)
                          (Demo.whole_frame Demo.up_and_down i) = [])
    by (left; reflexivity).
  split; [exact H|].
  destruct (bootstrap_without_predictions Demo.Tape Demo.draw Demo.lstsq_raises
              None R Demo.first_target Demo.answer Demo.whole_frame
              Demo.up_and_down Demo.up_and_down features 2024 0 0.95 [] H)
    as [H1 [_ [H3 _]]].
  split; [exact H1|exact H3].
Defined.

(** C3, witness: a series with one feature and a form score of 2, a model
    that answers 7. *)
Lemma adjusted_prediction_clamped_witness :
  series_select [(Col Points, 50); (RecentFormScore, 2)] [Points] = Some [50]
  /\ series_get [(Col Points, 50); (RecentFormScore, 2)] RecentFormScore = Some 2
  /\ adjusted_prediction Demo.Tape R Demo.answer 7 [Points]
       [(Col Points, 50); (RecentFormScore, 2)] []
     = (Ok (Py.clamp 1 20 (7 - 0.05 * 2)), [])
  /\ 1 <= Py.clamp 1 20 (7 - 0.05 * 2) <= 20.
Proof.
  split; [reflexivity|]. split; [reflexivity|].
  destruct (adjusted_prediction_clamped Demo.Tape R Demo.answer 7 [Points]
              [(Col Points, 50); (RecentFormScore, 2)] [50] 2 []
              eq_refl eq_refl) as [H1 [H2 _]].
  split; [exact H1|exact H2].
Defined.









Local Abbreviation demo_average :=
  (weighted_average Demo.Tape Demo.draw Demo.lstsq_raises).
Local Abbreviation demo_compare pe sample :=
  (compare_predictions_with_confidence Demo.Tape Demo.draw Demo.lstsq_raises pe R
     Demo.first_target Demo.answer sample).
Local Abbreviation demo_table pe sample :=
  (compare_predictions_table Demo.Tape Demo.draw Demo.lstsq_raises pe R
     Demo.first_target Demo.answer sample).


(** X3, witness: the series of one season over the points alone has no
    entry for the goals, and a prediction that asks for them fails. *)
Lemma weighted_series_keys_witness :
  [Demo.season "A" 2023 50 10] <> []
  /\ exists s g',
       demo_average [Demo.season "A" 2023 50 10] [Points] 2024 [] = (Ok s, g')
       /\ series_get s (Col Gf) = None
       /\ adjusted_prediction Demo.Tape R Demo.answer 7 [Gf] s []
          = (Err KeyError, []).
Proof.
  assert (H : [Demo.season "A" 2023 50 10] <> []) by discriminate.
  split; [exact H|].
  destruct (weighted_average_ok Demo.Tape Demo.draw Demo.lstsq_raises
              [Demo.season "A" 2023 50 10] [Points] 2024 [] H) as [s [Hs _]].
  exists s. eexists. split; [exact Hs|].
  destruct (weighted_series_keys Demo.Tape Demo.draw Demo.lstsq_raises R
              Demo.answer [Demo.season "A" 2023 50 10] [Points] 2024 [] _ s H Hs)
    as [Hkeys [_ Hpred]].
  assert (Hgf : ~ In Gf [Points]).
  { intros [Hc|[]]. discriminate Hc. }
  split.
  - apply Hkeys. exact Hgf.
  - apply (proj2 (Hpred 7 [Gf] [])). exists Gf. split; [left; reflexivity|exact Hgf].
Defined.




(** X11, witness: the lopsided run at a level of -0.5. *)
Lemma bootstrap_negative_level_swaps_bounds_witness :
  demo_predictions Demo.lopsided Demo.up_and_down Demo.up_and_down features 2024
    100 [] = (Ok (repeat 1 98 ++ [20; 20]), [])
  /\ repeat 1 98 ++ [20; 20] <> []
  /\ -1 <= -0.5 <= 0
  /\ exists ci lo hi,
       demo_interval None Demo.lopsided Demo.up_and_down Demo.up_and_down features
         2024 100 (-0.5) [] = (Ok ci, [])
       /\ lower_bound ci = Finite lo
       /\ upper_bound ci = Finite hi
       /\ hi <= lo.
Proof.
  assert (H1 : repeat 1 98 ++ [20; 20] <> []) by discriminate.
  assert (H2 : -1 <= -0.5 <= 0) by lra.
  split; [apply up_and_down_collected|]. split; [exact H1|]. split; [exact H2|].
  exact (bootstrap_negative_level_swaps_bounds Demo.Tape Demo.draw
           Demo.lstsq_raises None R Demo.first_target Demo.answer Demo.lopsided
           Demo.up_and_down Demo.up_and_down features 2024 100 (-0.5) [] []
           (repeat 1 98 ++ [20; 20]) (up_and_down_collected []) H1 H2).
Defined.



(** X13, witness: the lopsided run. *)
Lemma bootstrap_standard_error_bounds_witness :
  demo_predictions Demo.lopsided Demo.up_and_down Demo.up_and_down features 2024
    100 [] = (Ok (repeat 1 98 ++ [20; 20]), [])
  /\ repeat 1 98 ++ [20; 20] <> []
  /\ -1 <= 0.95 <= 1
  /\ exists ci se,
       demo_interval None Demo.lopsided Demo.up_and_down Demo.up_and_down features
         2024 100 0.95 [] = (Ok ci, [])
       /\ standard_error ci = Finite se
       /\ 0 <= se <= 19.
Proof.
  assert (H1 : repeat 1 98 ++ [20; 20] <> []) by discriminate.
  assert (H2 : -1 <= 0.95 <= 1) by lra.
  split; [apply up_and_down_collected|]. split; [exact H1|]. split; [exact H2|].
  destruct (bootstrap_standard_error_bounds Demo.Tape Demo.draw Demo.lstsq_raises
              None R Demo.first_target Demo.answer Demo.lopsided Demo.up_and_down
              Demo.up_and_down features 2024 100 0.95 [] []
              (repeat 1 98 ++ [20; 20]) (up_and_down_collected []) H1 H2)
    as [ci [point [se [Hrun [_ [Hse [_ Hb]]]]]]].
  exists ci, se. split; [exact Hrun|]. split; [exact Hse|exact Hb].
Defined.

(** X14, witness: the lopsided run at level 1. *)
Lemma bootstrap_full_level_covers_all_witness :
  demo_predictions Demo.lopsided Demo.up_and_down Demo.up_and_down features 2024
    100 [] = (Ok (repeat 1 98 ++ [20; 20]), [])
  /\ repeat 1 98 ++ [20; 20] <> []
  /\ exists ci lo hi,
       demo_interval None Demo.lopsided Demo.up_and_down Demo.up_and_down features
         2024 100 1 [] = (Ok ci, [])
       /\ lower_bound ci = Finite lo
       /\ upper_bound ci = Finite hi
       /\ Forall (fun p => lo <= p <= hi) (repeat 1 98 ++ [20; 20]).
Proof.
  assert (H1 : repeat 1 98 ++ [20; 20] <> []) by discriminate.
  split; [apply up_and_down_collected|]. split; [exact H1|].
  destruct (bootstrap_full_level_covers_all Demo.Tape Demo.draw Demo.lstsq_raises
              None R Demo.first_target Demo.answer Demo.lopsided Demo.up_and_down
              Demo.up_and_down features 2024 100 [] []
              (repeat 1 98 ++ [20; 20]) (up_and_down_collected []) H1)
    as [ci [lo [hi [Hrun [Hlo [Hhi [_ [_ Hall]]]]]]]].
  exists ci, lo, hi. repeat split; assumption.
Defined.

(** X17, witness: the only test row is that of a club without an earlier
    season. *)
Lemma cross_validate_zero_without_usable_rows_witness :
  features <> []
  /\ (forall period r,
     In period cv_periods -> In r (cv_test_data Demo.promoted period) ->
     team_rows (team r) (cv_train_data Demo.promoted period) = [])
  /\ cross_validate_time_series Demo.Tape Demo.draw Demo.lstsq_raises R
       Demo.first_target Demo.answer Demo.no_score Demo.promoted features
       Position 2024 [] = (Ok 0, []).
Proof.
  assert (H : forall period r,
            In period cv_periods -> In r (cv_test_data Demo.promoted period) ->
            team_rows (team r) (cv_train_data Demo.promoted period) = []).
  { intros period r Hp Hr.
    destruct Hp as [Hp|[Hp|[Hp|[]]]]; subst period.
    - change (In r [Demo.season "A" 2015 40 5]) in Hr.
      destruct Hr as [Hr|[]]. subst r. reflexivity.
    - destruct Hr.
    - destruct Hr. }
  assert (Hf : features <> []) by discriminate.
  split; [exact Hf|]. split; [exact H|].
  exact (cross_validate_zero_without_usable_rows Demo.Tape Demo.draw
           Demo.lstsq_raises R Demo.first_target Demo.answer Demo.no_score
           Demo.promoted features Position 2024 [] Hf H).
Defined.

(** A run over the club of [Demo.up_and_down] and a club without history:
    every resample is the whole frame. *)
Lemma up_and_down_run :
  exists ranked intervals g',
    demo_compare None Demo.whole_frame Demo.up_and_down ["A"; "B"]%string
      [("A"%string, 3)] 2024 0.95 [] = (Ok (ranked, intervals), g').
Proof.
  unfold compare_predictions_with_confidence.
  change (filter _ Demo.up_and_down) with Demo.up_and_down.
  change (length Demo.up_and_down =? 0)%nat with false. cbv iota.
  destruct (compare_loop_total Demo.Tape Demo.draw Demo.lstsq_raises None R
              Demo.first_target Demo.answer Demo.whole_frame Demo.up_and_down
              (Demo.first_target (design features Demo.up_and_down)
                 (map (col target) Demo.up_and_down))
              2024 0.95 ["A"; "B"]%string)
    with (names := ["A"; "B"]%string)
         (acc := (@nil (string * R), @nil TeamInterval)) (g0 := @nil R)
    as [[P C] [g1 Hrun]].
  - lra.
  - right. intros name [Hn|[Hn|[]]] Hne; subst name.
    + discriminate.
    + exfalso. apply Hne. reflexivity.
  - apply incl_refl.
  - unfold bind. rewrite Hrun. unfold ret.
    eexists. eexists. eexists. reflexivity.
Qed.

(** X18, witness: of the two listed clubs only the one with history is
    predicted, at rank 1. *)
Lemma compare_predicts_teams_with_history_witness :
  exists ranked intervals g',
    demo_compare None Demo.whole_frame Demo.up_and_down ["A"; "B"]%string
      [("A"%string, 3)] 2024 0.95 [] = (Ok (ranked, intervals), g')
    /\ map ci_team intervals = ["A"%string]
    /\ map snd ranked = [1%nat].
Proof.
  destruct up_and_down_run as [ranked [intervals [g' Hrun]]].
  exists ranked, intervals, g'. split; [exact Hrun|].
  destruct (compare_predicts_teams_with_history Demo.Tape Demo.draw
              Demo.lstsq_raises None R Demo.first_target Demo.answer
              Demo.whole_frame Demo.up_and_down ["A"; "B"]%string
              [("A"%string, 3)] 2024 0.95 [] g' ranked intervals Hrun)
    as [Hi [_ [Hr _]]].
  split; [exact Hi|exact Hr].
Defined.

(** X19, witness: the interval rows of the same run. *)
Lemma compare_interval_widths_witness :
  0 <= 0.95 <= 1
  /\ exists ranked intervals g',
       demo_compare None Demo.whole_frame Demo.up_and_down ["A"; "B"]%string
         [("A"%string, 3)] 2024 0.95 [] = (Ok (ranked, intervals), g')
       /\ Forall interval_in_range intervals.
Proof.
  assert (H : 0 <= 0.95 <= 1) by lra.
  split; [exact H|].
  destruct up_and_down_run as [ranked [intervals [g' Hrun]]].
  exists ranked, intervals, g'. split; [exact Hrun|].
  exact (proj1 (compare_interval_widths Demo.Tape Demo.draw Demo.lstsq_raises None
                  R Demo.first_target Demo.answer Demo.whole_frame
                  Demo.up_and_down ["A"; "B"]%string [("A"%string, 3)] 2024 0.95
                  [] g' ranked intervals Hrun H)).
Defined.



(** X23, witness: two listed clubs, neither in the dataset. *)
Lemma compare_no_history_key_error_witness :
  filter (fun r => (season_end_year r <? 2024)%Z) Demo.up_and_down <> []
  /\ (forall name, In name ["B"; "C"]%string ->
        team_rows name
          (filter (fun r => (season_end_year r <? 2024)%Z) Demo.up_and_down) = [])
  /\ demo_table None Demo.whole_frame Demo.up_and_down ["B"; "C"]%string
       [("B"%string, 3)] 2024 0.95 [] = (Err KeyError, []).
Proof.
  assert (H1 : filter (fun r => (season_end_year r <? 2024)%Z) Demo.up_and_down
               <> []) by discriminate.
  assert (H2 : forall name, In name ["B"; "C"]%string ->
            team_rows name
              (filter (fun r => (season_end_year r <? 2024)%Z) Demo.up_and_down)
            = []).
  { intros name [Hn|[Hn|[]]]; subst name; reflexivity. }
  split; [exact H1|]. split; [exact H2|].
  exact (proj2 (compare_no_history_key_error Demo.Tape Demo.draw Demo.lstsq_raises
                  None R Demo.first_target Demo.answer Demo.whole_frame
                  Demo.up_and_down ["B"; "C"]%string [("B"%string, 3)] 2024 0.95
                  [] H1 H2)).
Defined.

(** The table of the run over the club of [Demo.up_and_down]. *)
Lemma up_and_down_table :
  exists rows g',
    demo_table None Demo.whole_frame Demo.up_and_down ["A"; "B"]%string
      [("A"%string, 3)] 2024 0.95 [] = (Ok rows, g').
Proof.
  destruct up_and_down_run as [ranked [intervals [g' Hrun]]].
  destruct (compare_run_shape _ _ _ _ _ _ _ _ _ _ _ _ _ _ _ _ _ Hrun)
    as [predictions [Hr [Hn [Hi _]]]].
  unfold compare_predictions_table, bind, lift_result. rewrite Hrun.
  cbn [fst snd]. unfold comparison_table.
  destruct ranked as [|p0 ranked'].
  { exfalso.
    pose proof (Permutation_length (assign_ranks_names predictions)) as Hlen.
    rewrite <- Hr, Hn in Hlen. discriminate Hlen. }
  destruct intervals as [|c0 intervals'].
  { discriminate Hi. }
  eexists. eexists. reflexivity.
Qed.

(** X24, witness: the rows of that table. *)
Lemma compare_table_rows_in_range_witness :
  exists rows g',
    demo_table None Demo.whole_frame Demo.up_and_down ["A"; "B"]%string
      [("A"%string, 3)] 2024 0.95 [] = (Ok rows, g')
    /\ Forall (fun row =>
                 In (cmp_team row, actual_position row) [("A"%string, 3)]
                 /\ (1 <= predicted_position row <= 1)%nat) rows.
Proof.
  destruct up_and_down_table as [rows [g' Hrun]].
  exists rows, g'. split; [exact Hrun|].
  pose proof (compare_table_rows_in_range Demo.Tape Demo.draw Demo.lstsq_raises
                None R Demo.first_target Demo.answer Demo.whole_frame
                Demo.up_and_down ["A"; "B"]%string [("A"%string, 3)] 2024 0.95
                [] g' rows Hrun) as Hrows.
  cbv zeta in Hrows.
  eapply Forall_impl; [|exact Hrows].
  intros row [_ [_ [Ha [Hp _]]]]. split; [exact Ha|exact Hp].
Defined.



